(** * Axiom token store: the mock client of [axiom/testing.py]

    A shallow embedding of [MockAxiomClient.MockTokensClient]
    (python-client/axiom/testing.py) and of the request and response models
    it builds (python-client/axiom/models.py), with the properties of the
    token store stated and proved over it.

    Conventions.
    - Python [int] is [Z]; Python [float] values are only stored and
      compared, never computed with, and are modelled as rationals [Q]
      (a float literal is read as the decimal it denotes).
    - A Python [dict] is an association list in insertion order, since
      [list(d.values())] exposes that order.
    - An operation is a function from the client state to a result and the
      state it leaves behind; a raised exception is the [Raise] result and
      keeps whatever was written before the raise.
    - The clock.  Line 9 of testing.py is [from datetime import datetime],
      so the name [datetime] is the class [datetime.datetime]; that class
      has no attribute [UTC] (the module [datetime] has one).  Evaluating
      [datetime.now(datetime.UTC)] therefore raises AttributeError at the
      attribute lookup, in every call; the model has it so.
    - The draws of [random.uniform] and [random.randint] come from the
      environment: [query] takes the sequence of draws, [api_keys.create]
      the number drawn. *)

From Stdlib Require Import ZArith QArith List String Ascii Bool Lia Sorting.Sorted
  Sorting.Permutation.
Import ListNotations.

Local Open Scope Z_scope.

(** ** Python dictionaries *)

Module Dict.

Section Ops.
Context {K V : Type} (eqb : K -> K -> bool).

(** [k in d] *)
Definition mem (k : K) (d : list (K * V)) : bool :=
  existsb (fun kv => eqb k (fst kv)) d.

(** [d.get(k)], [None] when the key is missing *)
Fixpoint lookup (k : K) (d : list (K * V)) : option V :=
  match d with
  | [] => None
  | (k', v) :: d' => if eqb k k' then Some v else lookup k d'
  end.

(** [d.get(k, default)] *)
Definition get (k : K) (default : V) (d : list (K * V)) : V :=
  match lookup k d with
  | Some v => v
  | None => default
  end.

(** [d[k] = v]: an existing key keeps its position, a new key goes last *)
Fixpoint set (k : K) (v : V) (d : list (K * V)) : list (K * V) :=
  match d with
  | [] => [(k, v)]
  | (k', v') :: d' =>
      if eqb k k' then (k', v) :: d' else (k', v') :: set k v d'
  end.

(** [del d[k]] *)
Definition del (k : K) (d : list (K * V)) : list (K * V) :=
  filter (fun kv => negb (eqb k (fst kv))) d.

(** [d.keys()] and [d.values()] *)
Definition keys (d : list (K * V)) : list K := map fst d.
Definition values (d : list (K * V)) : list V := map snd d.

(** truth value of a dictionary: empty is false *)
Definition truthy (d : list (K * V)) : bool :=
  match d with
  | [] => false
  | _ :: _ => true
  end.
End Ops.

End Dict.

(** ** Python slicing, [l[start:stop]] with integer bounds *)

(** A negative bound counts from the end; both bounds are clamped into
    [0 .. len(l)]. *)
Definition clamp_index (len i : Z) : Z :=
  if i <? 0 then Z.max 0 (len + i) else Z.min i len.

Definition py_slice {A : Type} (l : list A) (start stop : Z) : list A :=
  let len := Z.of_nat (List.length l) in
  let a := clamp_index len start in
  let b := clamp_index len stop in
  firstn (Z.to_nat (b - a)) (skipn (Z.to_nat a) l).

(** ** Models (models.py) *)

Inductive Layer : Type := L1 | L2 | L3 | L4 | L5 | L6 | L7 | L8.

(** The value of [Token.coordinates]: one entry per layer key ["L1"] ..
    ["L8"], each [None] or a list of floats. *)
Record Coordinates : Type := mkCoordinates {
  cL1 : option (list Q);
  cL2 : option (list Q);
  cL3 : option (list Q);
  cL4 : option (list Q);
  cL5 : option (list Q);
  cL6 : option (list Q);
  cL7 : option (list Q);
  cL8 : option (list Q)
}.

(** [coordinates[L]] *)
Definition coord (L : Layer) (c : Coordinates) : option (list Q) :=
  match L with
  | L1 => cL1 c | L2 => cL2 c | L3 => cL3 c | L4 => cL4 c
  | L5 => cL5 c | L6 => cL6 c | L7 => cL7 c | L8 => cL8 c
  end.

(** [coordinates[L] = v] *)
Definition set_coord (L : Layer) (v : option (list Q)) (c : Coordinates)
  : Coordinates :=
  match L with
  | L1 => mkCoordinates v (cL2 c) (cL3 c) (cL4 c) (cL5 c) (cL6 c) (cL7 c) (cL8 c)
  | L2 => mkCoordinates (cL1 c) v (cL3 c) (cL4 c) (cL5 c) (cL6 c) (cL7 c) (cL8 c)
  | L3 => mkCoordinates (cL1 c) (cL2 c) v (cL4 c) (cL5 c) (cL6 c) (cL7 c) (cL8 c)
  | L4 => mkCoordinates (cL1 c) (cL2 c) (cL3 c) v (cL5 c) (cL6 c) (cL7 c) (cL8 c)
  | L5 => mkCoordinates (cL1 c) (cL2 c) (cL3 c) (cL4 c) v (cL6 c) (cL7 c) (cL8 c)
  | L6 => mkCoordinates (cL1 c) (cL2 c) (cL3 c) (cL4 c) (cL5 c) v (cL7 c) (cL8 c)
  | L7 => mkCoordinates (cL1 c) (cL2 c) (cL3 c) (cL4 c) (cL5 c) (cL6 c) v (cL8 c)
  | L8 => mkCoordinates (cL1 c) (cL2 c) (cL3 c) (cL4 c) (cL5 c) (cL6 c) (cL7 c) v
  end.

(** [class Token(BaseModel)] *)
Record Token : Type := mkToken {
  id : Z;
  id_hex : string;
  local_id : Z;
  entity_type : Z;
  domain : Z;
  weight : Q;
  field_radius : Q;
  field_strength : Q;
  timestamp : Z;
  age_seconds : Z;
  flags : list (string * bool);
  coordinates : Coordinates
}.

(** [class TokenQueryResult(BaseModel)] *)
Record TokenQueryResult : Type := mkTokenQueryResult {
  token_id : option Z;
  label : string;
  score : Q;
  result_entity_type : string;
  result_coordinates : option Coordinates
}.

(** The bounds that [TokenCreate] and [TokenUpdate] declare on the scalar
    attributes ([ge=0.0, le=1.0] and [ge=0.0, le=2.55]). *)
Definition weight_ok (w : Q) : Prop := (0 <= w /\ w <= 1)%Q.
Definition field_radius_ok (r : Q) : Prop := (0 <= r /\ r <= 255 # 100)%Q.
Definition field_strength_ok (f : Q) : Prop := (0 <= f /\ f <= 1)%Q.

Definition token_in_bounds (t : Token) : Prop :=
  weight_ok (weight t) /\ field_radius_ok (field_radius t)
  /\ field_strength_ok (field_strength t).

(** ** Text of an id: [f"0x{token_id:08X}"] and [f"token_{token.id}"] *)

Definition hex_digit (d : Z) : ascii :=
  if d <? 10 then ascii_of_nat (Z.to_nat (48 + d))
  else ascii_of_nat (Z.to_nat (55 + d)).

Definition dec_digit (d : Z) : ascii := ascii_of_nat (Z.to_nat (48 + d)).

(** digits of a non-negative [n] in base [b], most significant first *)
Fixpoint digits_fuel (fuel : nat) (b : Z) (digit : Z -> ascii) (n : Z)
  (acc : string) : string :=
  match fuel with
  | O => acc
  | S fuel' =>
      let acc' := String (digit (n mod b)) acc in
      if n / b =? 0 then acc' else digits_fuel fuel' b digit (n / b) acc'
  end.

Definition digits (b : Z) (digit : Z -> ascii) (n : Z) : string :=
  digits_fuel (S (Z.to_nat (Z.log2 n))) b digit n EmptyString.

Fixpoint zeros (k : nat) : string :=
  match k with
  | O => EmptyString
  | S k' => String "0"%char (zeros k')
  end.

(** sign, then zero padding up to [width] characters in all, then digits *)
Definition format_int (b : Z) (digit : Z -> ascii) (width : nat) (n : Z)
  : string :=
  let body := digits b digit (Z.abs n) in
  let sign := if n <? 0 then "-"%string else EmptyString in
  let pad := (width - String.length sign - String.length body)%nat in
  (sign ++ zeros pad ++ body)%string.

Definition format_08X (n : Z) : string := format_int 16 hex_digit 8 n.
Definition format_d (n : Z) : string := format_int 10 dec_digit 0 n.

(** ** Client state, exceptions and the operation monad *)

(** The part of [MockAxiomClient] that the token operations read and write:
    [_tokens_store] and [_next_token_id]. *)
Record Client : Type := mkClient {
  _tokens_store : list (Z * Token);
  _next_token_id : Z
}.

(** [MockAxiomClient.__init__] *)
Definition init : Client := mkClient [] 1.

Inductive Exception : Type :=
| NotFoundError (message code : string)
| KeyError (key : Z)
| AttributeError (message : string).

Inductive Outcome (A : Type) : Type :=
| Return (a : A)
| Raise (e : Exception).

Arguments Return {A} a.
Arguments Raise {A} e.

Definition M (A : Type) : Type := Client -> Outcome A * Client.

Definition ret {A : Type} (a : A) : M A := fun s => (Return a, s).

Definition raise {A : Type} (e : Exception) : M A := fun s => (Raise e, s).

Definition bind {A B : Type} (m : M A) (k : A -> M B) : M B :=
  fun s =>
    match m s with
    | (Return a, s') => k a s'
    | (Raise e, s') => (Raise e, s')
    end.

Declare Scope client_scope.
Delimit Scope client_scope with client.
Notation "x <- m ;; k" := (bind m (fun x => k))
  (at level 61, m at next level, right associativity) : client_scope.
Notation "m ;; k" := (bind m (fun _ => k))
  (at level 61, right associativity) : client_scope.

Definition tokens_store : M (list (Z * Token)) :=
  fun s => (Return (_tokens_store s), s).

Definition next_token_id : M Z :=
  fun s => (Return (_next_token_id s), s).

Definition put_tokens_store (d : list (Z * Token)) : M unit :=
  fun s => (Return tt, mkClient d (_next_token_id s)).

Definition put_next_token_id (n : Z) : M unit :=
  fun s => (Return tt, mkClient (_tokens_store s) n).

(** [d[k]] on the token store *)
Definition subscript (k : Z) (d : list (Z * Token)) : M Token :=
  match Dict.lookup Z.eqb k d with
  | Some t => ret t
  | None => raise (KeyError k)
  end.

(** The exception of the attribute lookup [datetime.UTC] on the class
    [datetime.datetime]. *)
Definition no_UTC : Exception :=
  AttributeError "type object 'datetime.datetime' has no attribute 'UTC'".

(** [int(datetime.now(datetime.UTC).timestamp())]: the argument
    [datetime.UTC] is evaluated first and raises. *)
Definition utc_timestamp : M Z := raise no_UTC.

(** ** Keyword arguments shared by [create] and [update] *)

Record LayerArgs : Type := mkLayerArgs {
  l1_physical : option (list (string * Q));
  l2_sensory : option (list (string * Q));
  l3_motor : option (list (string * Q));
  l4_emotional : option (list (string * Q));
  l5_cognitive : option (list (string * Q));
  l6_social : option (list (string * Q));
  l7_temporal : option (list (string * Q));
  l8_abstract : option (list (string * Q))
}.

Definition no_layers : LayerArgs :=
  mkLayerArgs None None None None None None None None.

Definition layer_arg (L : Layer) (a : LayerArgs)
  : option (list (string * Q)) :=
  match L with
  | L1 => l1_physical a | L2 => l2_sensory a | L3 => l3_motor a
  | L4 => l4_emotional a | L5 => l5_cognitive a | L6 => l6_social a
  | L7 => l7_temporal a | L8 => l8_abstract a
  end.

Definition set_layer_arg (L : Layer) (d : option (list (string * Q)))
  (a : LayerArgs) : LayerArgs :=
  match L with
  | L1 => mkLayerArgs d (l2_sensory a) (l3_motor a) (l4_emotional a)
            (l5_cognitive a) (l6_social a) (l7_temporal a) (l8_abstract a)
  | L2 => mkLayerArgs (l1_physical a) d (l3_motor a) (l4_emotional a)
            (l5_cognitive a) (l6_social a) (l7_temporal a) (l8_abstract a)
  | L3 => mkLayerArgs (l1_physical a) (l2_sensory a) d (l4_emotional a)
            (l5_cognitive a) (l6_social a) (l7_temporal a) (l8_abstract a)
  | L4 => mkLayerArgs (l1_physical a) (l2_sensory a) (l3_motor a) d
            (l5_cognitive a) (l6_social a) (l7_temporal a) (l8_abstract a)
  | L5 => mkLayerArgs (l1_physical a) (l2_sensory a) (l3_motor a)
            (l4_emotional a) d (l6_social a) (l7_temporal a) (l8_abstract a)
  | L6 => mkLayerArgs (l1_physical a) (l2_sensory a) (l3_motor a)
            (l4_emotional a) (l5_cognitive a) d (l7_temporal a) (l8_abstract a)
  | L7 => mkLayerArgs (l1_physical a) (l2_sensory a) (l3_motor a)
            (l4_emotional a) (l5_cognitive a) (l6_social a) d (l8_abstract a)
  | L8 => mkLayerArgs (l1_physical a) (l2_sensory a) (l3_motor a)
            (l4_emotional a) (l5_cognitive a) (l6_social a) (l7_temporal a) d
  end.

(** [[d.get("x", 0.0), d.get("y", 0.0), d.get("z", 0.0)]] *)
Definition xyz (m : list (string * Q)) : list Q :=
  [Dict.get String.eqb "x"%string 0%Q m;
   Dict.get String.eqb "y"%string 0%Q m;
   Dict.get String.eqb "z"%string 0%Q m].

(** [[...] if d else None] *)
Definition xyz_or_none (d : option (list (string * Q))) : option (list Q) :=
  match d with
  | Some m => if Dict.truthy m then Some (xyz m) else None
  | None => None
  end.

(** attribute assignments on a token object *)
Definition with_weight (w : Q) (t : Token) : Token :=
  mkToken (id t) (id_hex t) (local_id t) (entity_type t) (domain t)
    w (field_radius t) (field_strength t) (timestamp t) (age_seconds t)
    (flags t) (coordinates t).

Definition with_field_radius (r : Q) (t : Token) : Token :=
  mkToken (id t) (id_hex t) (local_id t) (entity_type t) (domain t)
    (weight t) r (field_strength t) (timestamp t) (age_seconds t)
    (flags t) (coordinates t).

Definition with_field_strength (f : Q) (t : Token) : Token :=
  mkToken (id t) (id_hex t) (local_id t) (entity_type t) (domain t)
    (weight t) (field_radius t) f (timestamp t) (age_seconds t)
    (flags t) (coordinates t).

Definition with_coordinates (c : Coordinates) (t : Token) : Token :=
  mkToken (id t) (id_hex t) (local_id t) (entity_type t) (domain t)
    (weight t) (field_radius t) (field_strength t) (timestamp t)
    (age_seconds t) (flags t) c.

(** [if x is not None: token.attr = x] *)
Definition assign_if_given {A : Type} (f : A -> Token -> Token)
  (x : option A) (t : Token) : Token :=
  match x with
  | Some a => f a t
  | None => t
  end.

(** [if lN: token.coordinates["LN"] = [...]] *)
Definition assign_layer (L : Layer) (a : LayerArgs) (t : Token) : Token :=
  match layer_arg L a with
  | Some m =>
      if Dict.truthy m
      then with_coordinates (set_coord L (Some (xyz m)) (coordinates t)) t
      else t
  | None => t
  end.

(** ** [results.sort(key=lambda r: r.score, reverse=True)] *)

(** A stable sort by descending score: among results of equal score the
    earlier one stays first. *)
Fixpoint insert_by_score (r : TokenQueryResult) (l : list TokenQueryResult)
  : list TokenQueryResult :=
  match l with
  | [] => [r]
  | r' :: l' =>
      if Qle_bool (score r') (score r) then r :: r' :: l'
      else r' :: insert_by_score r l'
  end.

Fixpoint sort_by_score (l : list TokenQueryResult) : list TokenQueryResult :=
  match l with
  | [] => []
  | r :: l' => insert_by_score r (sort_by_score l')
  end.

(** ** [class MockTokensClient] *)

Module MockTokensClient.

Local Open Scope client_scope.
Local Open Scope string_scope.

(** [create].  The keyword arguments of [Token(...)] are evaluated in
    order; [timestamp] is the first whose evaluation has an effect, and it
    raises (see [utc_timestamp]), after the counter was incremented and
    before the token is stored. *)
Definition create (entity_type domain : Z)
  (weight field_radius field_strength : Q) (persistent : bool)
  (layers : LayerArgs) : M Token :=
  token_id <- next_token_id ;;
  put_next_token_id (token_id + 1) ;;
  let coordinates :=
    mkCoordinates
      (xyz_or_none (l1_physical layers)) (xyz_or_none (l2_sensory layers))
      (xyz_or_none (l3_motor layers)) (xyz_or_none (l4_emotional layers))
      (xyz_or_none (l5_cognitive layers)) (xyz_or_none (l6_social layers))
      (xyz_or_none (l7_temporal layers)) (xyz_or_none (l8_abstract layers)) in
  timestamp <- utc_timestamp ;;
  let token :=
    mkToken token_id ("0x" ++ format_08X token_id) token_id entity_type
      domain weight field_radius field_strength timestamp 0
      [("active", true); ("persistent", persistent)] coordinates in
  store <- tokens_store ;;
  put_tokens_store (Dict.set Z.eqb token_id token store) ;;
  ret token.

(** [get] *)
Definition get (token_id : Z) : M Token :=
  store <- tokens_store ;;
  if negb (Dict.mem Z.eqb token_id store)
  then raise (NotFoundError ("Token " ++ format_d token_id ++ " not found")
                "TOKEN_NOT_FOUND")
  else subscript token_id store.

(** [list]: [tokens[offset : offset + limit]] over the store's values *)
Definition list_ (limit offset : Z) : M (list Token) :=
  store <- tokens_store ;;
  let tokens := Dict.values store in
  ret (py_slice tokens offset (offset + limit)).

(** [update].  The token object is the one held by the store and is changed
    in place; nothing can raise between the first assignment and the final
    store of the object under its key, so the writes appear here as that
    one store. *)
Definition update (token_id : Z) (weight field_radius field_strength : option Q)
  (layers : LayerArgs) : M Token :=
  token <- get token_id ;;
  let token := assign_if_given with_weight weight token in
  let token := assign_if_given with_field_radius field_radius token in
  let token := assign_if_given with_field_strength field_strength token in
  let token := assign_layer L1 layers token in
  let token := assign_layer L2 layers token in
  let token := assign_layer L3 layers token in
  let token := assign_layer L4 layers token in
  let token := assign_layer L5 layers token in
  let token := assign_layer L6 layers token in
  let token := assign_layer L7 layers token in
  let token := assign_layer L8 layers token in
  store <- tokens_store ;;
  put_tokens_store (Dict.set Z.eqb token_id token store) ;;
  ret token.

(** [delete] *)
Definition delete (token_id : Z) : M bool :=
  store <- tokens_store ;;
  if negb (Dict.mem Z.eqb token_id store)
  then raise (NotFoundError ("Token " ++ format_d token_id ++ " not found")
                "TOKEN_NOT_FOUND")
  else
    put_tokens_store (Dict.del Z.eqb token_id store) ;;
    ret true.

(** The loop of [query] over the truncated token list; [uniform i] is the
    value of the [i]-th call of [random.uniform(0.7, 1.0)]. *)
Fixpoint query_loop (threshold : option Q) (uniform : nat -> Q) (i : nat)
  (tokens : list Token) : list TokenQueryResult :=
  match tokens with
  | [] => []
  | token :: rest =>
      let similarity := uniform i in
      let keep :=
        match threshold with
        | None => true
        | Some th => Qle_bool th similarity
        end in
      let results := query_loop threshold uniform (S i) rest in
      if keep
      then mkTokenQueryResult (Some (id token))
             ("token_" ++ format_d (id token)) similarity "Concept"
             (Some (coordinates token)) :: results
      else results
  end.

(** [query] *)
Definition query (text : string) (limit : Z) (threshold : option Q)
  (spaces : option (list string)) (include_connections : bool)
  (uniform : nat -> Q) : M (list TokenQueryResult) :=
  store <- tokens_store ;;
  let tokens := Dict.values store in
  let tokens := py_slice tokens 0 limit in
  let results := query_loop threshold uniform 0 tokens in
  ret (sort_by_score results).

End MockTokensClient.

(** ** [class TokensClient] (client.py): the request body of [update] *)

Module TokensClient.

Local Open Scope string_scope.

(** a value of the JSON body: a float or a coordinates mapping *)
Inductive BodyValue : Type :=
| BFloat (x : Q)
| BCoords (m : list (string * Q)).

(** [if x is not None: update_data[key] = x] *)
Definition put_if_given (key : string) (x : option Q)
  (update_data : list (string * BodyValue)) : list (string * BodyValue) :=
  match x with
  | Some a => Dict.set String.eqb key (BFloat a) update_data
  | None => update_data
  end.

(** [if lN: update_data[key] = lN] *)
Definition put_if_truthy (key : string) (d : option (list (string * Q)))
  (update_data : list (string * BodyValue)) : list (string * BodyValue) :=
  match d with
  | Some m =>
      if Dict.truthy m then Dict.set String.eqb key (BCoords m) update_data
      else update_data
  | None => update_data
  end.

(** The dictionary [update_data] that [update] sends as the body of its
    PUT request. *)
Definition update_data (weight field_radius field_strength : option Q)
  (layers : LayerArgs) : list (string * BodyValue) :=
  let update_data := [] in
  let update_data := put_if_given "weight" weight update_data in
  let update_data := put_if_given "field_radius" field_radius update_data in
  let update_data :=
    put_if_given "field_strength" field_strength update_data in
  let update_data :=
    put_if_truthy "l1_physical" (l1_physical layers) update_data in
  let update_data :=
    put_if_truthy "l2_sensory" (l2_sensory layers) update_data in
  let update_data := put_if_truthy "l3_motor" (l3_motor layers) update_data in
  let update_data :=
    put_if_truthy "l4_emotional" (l4_emotional layers) update_data in
  let update_data :=
    put_if_truthy "l5_cognitive" (l5_cognitive layers) update_data in
  let update_data :=
    put_if_truthy "l6_social" (l6_social layers) update_data in
  let update_data :=
    put_if_truthy "l7_temporal" (l7_temporal layers) update_data in
  let update_data :=
    put_if_truthy "l8_abstract" (l8_abstract layers) update_data in
  update_data.

End TokensClient.

(** ** Sequences of calls *)

Inductive Call : Type :=
| CallCreate (entity_type domain : Z) (weight field_radius field_strength : Q)
    (persistent : bool) (layers : LayerArgs)
| CallGet (token_id : Z)
| CallList (limit offset : Z)
| CallUpdate (token_id : Z) (weight field_radius field_strength : option Q)
    (layers : LayerArgs)
| CallDelete (token_id : Z)
| CallQuery (text : string) (limit : Z) (threshold : option Q)
    (spaces : option (list string)) (include_connections : bool)
    (uniform : nat -> Q).

(** What a call hands back, whatever its result type. *)
Inductive Value : Type :=
| VToken (t : Token)
| VTokens (l : list Token)
| VBool (b : bool)
| VResults (l : list TokenQueryResult).

Definition fmap {A B : Type} (f : A -> B) (m : M A) : M B :=
  fun s =>
    match m s with
    | (Return a, s') => (Return (f a), s')
    | (Raise e, s') => (Raise e, s')
    end.

Definition call (c : Call) : M Value :=
  match c with
  | CallCreate et d w fr fs p layers =>
      fmap VToken (MockTokensClient.create et d w fr fs p layers)
  | CallGet i => fmap VToken (MockTokensClient.get i)
  | CallList limit offset => fmap VTokens (MockTokensClient.list_ limit offset)
  | CallUpdate i w fr fs layers =>
      fmap VToken (MockTokensClient.update i w fr fs layers)
  | CallDelete i => fmap VBool (MockTokensClient.delete i)
  | CallQuery text limit th spaces ic uniform =>
      fmap VResults (MockTokensClient.query text limit th spaces ic uniform)
  end.

(** The state after a sequence of calls; an exception ends its own call
    only, the caller goes on with the next one. *)
Fixpoint run (cs : list Call) (s : Client) : Client :=
  match cs with
  | [] => s
  | c :: cs' => run cs' (snd (call c s))
  end.

(** The ids that the [create] calls of a sequence take from the counter
    ([token_id = self.parent._next_token_id], line 82), in the order of the
    calls, whether or not the call goes on to return. *)
Fixpoint allocated_ids (cs : list Call) (s : Client) : list Z :=
  match cs with
  | [] => []
  | c :: cs' =>
      match c with
      | CallCreate _ _ _ _ _ _ _ =>
          _next_token_id s :: allocated_ids cs' (snd (call c s))
      | _ => allocated_ids cs' (snd (call c s))
      end
  end.

(** ** Identity codec *)

Module IdentityCodec.

(** Modelled from the spec: the Identity Codec ([pack] and [unpack]), whose
    code is not part of the client library.  The spec gives the layout:
    entity_type in the top 4 bits, domain in the next 4 bits, local_id in
    the low 24 bits of a 32-bit id; [pack] fails with [InvalidRange] if
    entity_type > 15, domain > 15, or local_id exceeds the 24-bit range.
    The fields are unsigned. *)
Inductive PackError : Type := InvalidRange.

Definition pack (entity_type domain local_id : Z) : PackError + Z :=
  if (entity_type >? 15) || (domain >? 15) || (local_id >? 2 ^ 24 - 1)
  then inl InvalidRange
  else inr (Z.lor (Z.shiftl entity_type 28)
              (Z.lor (Z.shiftl domain 24) local_id)).


End IdentityCodec.

(** ** Derived definitions used by the statements *)

(** [NotFoundError(f"Token {token_id} not found", "TOKEN_NOT_FOUND")] *)
Definition not_found (i : Z) : Exception :=
  NotFoundError ("Token " ++ format_d i ++ " not found") "TOKEN_NOT_FOUND".

(** The structural errors of the spec are NotFound, OutOfRange,
    InvalidRange and AlreadyExists; the client raises the first only. *)
Definition structural (e : Exception) : Prop :=
  exists message code, e = NotFoundError message code.

(** A token record with id [n], laid out as the [Token(...)] expression of
    [create] lays it out (lines 133-146) for a timestamp [now].  It
    populates the stores of the examples; [create] itself raises before
    the expression is complete. *)
Definition created_token (n : Z) (entity_type domain : Z)
  (weight field_radius field_strength : Q) (persistent : bool)
  (layers : LayerArgs) (now : Z) : Token :=
  mkToken n ("0x" ++ format_08X n) n entity_type domain weight field_radius
    field_strength now 0
    [("active"%string, true); ("persistent"%string, persistent)]
    (mkCoordinates
       (xyz_or_none (l1_physical layers)) (xyz_or_none (l2_sensory layers))
       (xyz_or_none (l3_motor layers)) (xyz_or_none (l4_emotional layers))
       (xyz_or_none (l5_cognitive layers)) (xyz_or_none (l6_social layers))
       (xyz_or_none (l7_temporal layers)) (xyz_or_none (l8_abstract layers))).

(** The token object after the assignments of [update]. *)
Definition updated_token (w fr fs : option Q) (layers : LayerArgs)
  (t : Token) : Token :=
  assign_layer L8 layers (assign_layer L7 layers (assign_layer L6 layers
  (assign_layer L5 layers (assign_layer L4 layers (assign_layer L3 layers
  (assign_layer L2 layers (assign_layer L1 layers
  (assign_if_given with_field_strength fs
  (assign_if_given with_field_radius fr
  (assign_if_given with_weight w t)))))))))).

(** The state a call leaves, in closed form ([call_state] below). *)
Definition step (c : Call) (s : Client) : Client :=
  match c with
  | CallCreate et d w fr fs p layers =>
      mkClient (_tokens_store s) (_next_token_id s + 1)
  | CallUpdate i w fr fs layers =>
      match Dict.lookup Z.eqb i (_tokens_store s) with
      | Some t =>
          mkClient
            (Dict.set Z.eqb i (updated_token w fr fs layers t)
               (_tokens_store s))
            (_next_token_id s)
      | None => s
      end
  | CallDelete i =>
      match Dict.lookup Z.eqb i (_tokens_store s) with
      | Some _ =>
          mkClient (Dict.del Z.eqb i (_tokens_store s)) (_next_token_id s)
      | None => s
      end
  | CallGet _ | CallList _ _ | CallQuery _ _ _ _ _ _ => s
  end.

(** equality of layer keys *)
Definition Layer_eqb (a b : Layer) : bool :=
  match a, b with
  | L1, L1 | L2, L2 | L3, L3 | L4, L4 | L5, L5 | L6, L6 | L7, L7 | L8, L8 =>
      true
  | _, _ => false
  end.

(** The value of one layer after an update: replaced by the vector of a
    non-empty mapping, kept otherwise. *)
Definition layer_after (d : option (list (string * Q)))
  (before : option (list Q)) : option (list Q) :=
  match d with
  | Some m => if Dict.truthy m then Some (xyz m) else before
  | None => before
  end.

(** the value of an attribute after [if x is not None: token.attr = x] *)
Definition given_or {A : Type} (x : option A) (before : A) : A :=
  match x with
  | Some a => a
  | None => before
  end.

(** a bound on an optional field: it constrains a given value only *)
Definition given_ok (ok : Q -> Prop) (x : option Q) : Prop :=
  match x with
  | Some a => ok a
  | None => True
  end.

(** The scalar arguments of an [update] satisfy the bounds that
    [TokenUpdate] declares for them. *)
Definition attributes_in_bounds (w fr fs : option Q) : Prop :=
  given_ok weight_ok w /\ given_ok field_radius_ok fr
  /\ given_ok field_strength_ok fs.

(** every token of the store is within the declared bounds *)
Definition store_in_bounds (s : Client) : Prop :=
  Forall (fun kv => token_in_bounds (snd kv)) (_tokens_store s).

(** Keys are in strictly increasing order and below the allocation counter,
    and each token is stored under its own id. *)
Record store_wf (s : Client) : Prop := mk_store_wf {
  wf_sorted : StronglySorted Z.lt (Dict.keys (_tokens_store s));
  wf_below : Forall (fun k => k < _next_token_id s) (Dict.keys (_tokens_store s));
  wf_id : Forall (fun kv => id (snd kv) = fst kv) (_tokens_store s)
}.

(** The states of a client that started from [__init__]. *)
Definition reachable (s : Client) : Prop := exists cs, s = run cs init.

(** The sequence that [list] cuts its page from. *)
Definition listing (s : Client) : list Token := Dict.values (_tokens_store s).

(** the order of a list sorted by descending score *)
Definition score_ge (a b : TokenQueryResult) : Prop := (score b <= score a)%Q.

(** [{"x": 0.0, "y": 0.0, "z": 0.0}] *)
Definition zero_vector_args : list (string * Q) :=
  [("x"%string, 0%Q); ("y"%string, 0%Q); ("z"%string, 0%Q)].

(** [create()] with every argument at its default *)
Definition create_default : Call :=
  CallCreate 0 0 (1 # 2)%Q 1%Q 1%Q false no_layers.

(** A client whose store holds one token with the default attributes. *)
Definition one_token : Client :=
  mkClient [(1, created_token 1 0 0 (1 # 2)%Q 1%Q 1%Q false no_layers 0)] 2.

(** A client whose store holds one token with layers L1 and L4 set. *)
Definition two_layer_token : Client :=
  mkClient
    [(1, created_token 1 1 0 (1 # 2)%Q 1%Q 1%Q false
           (mkLayerArgs (Some zero_vector_args) None None
              (Some [("x"%string, (1 # 2)%Q)]) None None None None) 0)] 2.

(** A client whose store holds two tokens with the default attributes. *)
Definition two_tokens : Client :=
  mkClient
    [(1, created_token 1 0 0 (1 # 2)%Q 1%Q 1%Q false no_layers 0);
     (2, created_token 2 0 0 (1 # 2)%Q 1%Q 1%Q false no_layers 0)] 3.

(** A client whose store holds the tokens 1, 2 and 4, each with its own
    weight and a vector in layer L1. *)
Definition three_tokens : Client :=
  mkClient
    [(1, created_token 1 0 0 (1 # 10)%Q 1%Q 1%Q false
           (mkLayerArgs (Some [("x"%string, 1%Q)]) None None None None None
              None None) 0);
     (2, created_token 2 0 0 (2 # 10)%Q 1%Q 1%Q false
           (mkLayerArgs (Some [("x"%string, 2%Q)]) None None None None None
              None None) 0);
     (4, created_token 4 0 0 (4 # 10)%Q 1%Q 1%Q false
           (mkLayerArgs (Some [("x"%string, 4%Q)]) None None None None None
              None None) 0)] 5.

(** ** [class MockHealthClient]: [status] *)

(** [class SystemStatus(BaseModel)] *)
Module SystemStatus.
Record t : Type := mk {
  state : string;
  uptime_seconds : Q;
  tokens : list (string * Z);
  connections : list (string * Z);
  memory_usage_mb : Q;
  cpu_usage_percent : Q;
  components : list (string * string);
  version : option string;
  storage_backend : option string;
  cdna_profile : option string
}.
End SystemStatus.

Module MockHealthClient.

Local Open Scope client_scope.
Local Open Scope string_scope.

(** [status]; [len(self.parent._tokens_store)] is read twice. *)
Definition status : M SystemStatus.t :=
  store <- tokens_store ;;
  let total := Z.of_nat (List.length store) in
  store' <- tokens_store ;;
  let active := Z.of_nat (List.length store') in
  ret (SystemStatus.mk "running" (12345 # 1)
         [("total", total); ("active", active)]
         [("total", 0); ("active", 0)]
         (1285 # 10) (5 # 1)
         [("runtime", "running"); ("runtime_storage", "running");
          ("token_storage", "running"); ("grid_storage", "running");
          ("cdna_storage", "running")]
         (Some "0.59.0-mock") (Some "runtime") (Some "explorer")).

End MockHealthClient.

(** The ids removed by the successful [delete] calls of a sequence, in the
    order of the calls. *)
Fixpoint deleted_ids (cs : list Call) (s : Client) : list Z :=
  match cs with
  | [] => []
  | c :: cs' =>
      match c, call c s with
      | CallDelete i, (Return _, s') => i :: deleted_ids cs' s'
      | _, (_, s') => deleted_ids cs' s'
      end
  end.

(** the tokens of a store whose id is not [i], in store order *)
Definition without_id (i : Z) (l : list Token) : list Token :=
  filter (fun t => negb (Z.eqb i (id t))) l.

(** ** API key models (models.py) *)

(** A [datetime] value: an instant in microseconds since the epoch.  The
    ISO text that [create] passes to the models and the models' parse of it
    do not appear. *)
Definition datetime : Type := Z.

(** [timedelta(days=d)], in microseconds *)
Definition timedelta_days (d : Z) : Z := d * 86400000000.

(** [class APIKey(BaseModel)] *)
Module APIKey.
Record t : Type := mk {
  key_id : string;
  name : string;
  key_prefix : string;
  scopes : list string;
  created_at : datetime;
  expires_at : option datetime;
  last_used_at : option datetime;
  disabled : bool;
  api_key : option string
}.
End APIKey.

(** [class APIKeyCreated(BaseModel)] *)
Module APIKeyCreated.
Record t : Type := mk {
  key_id : string;
  name : string;
  api_key : string;
  key_prefix : string;
  scopes : list string;
  created_at : datetime;
  expires_at : option datetime;
  disabled : bool;
  last_used_at : option datetime
}.
End APIKeyCreated.

(** ** [class MockAPIKeysClient] *)

(** The part of [MockAxiomClient] that the API key operations read and
    write: [_api_keys_store] and [_next_key_id]. *)
Record KeyClient : Type := mkKeyClient {
  _api_keys_store : list (string * APIKey.t);
  _next_key_id : Z
}.

(** [MockAxiomClient.__init__] *)
Definition init_keys : KeyClient := mkKeyClient [] 1.

Definition KM (A : Type) : Type := KeyClient -> Outcome A * KeyClient.

Definition kret {A : Type} (a : A) : KM A := fun s => (Return a, s).

Definition kraise {A : Type} (e : Exception) : KM A := fun s => (Raise e, s).

Definition kbind {A B : Type} (m : KM A) (k : A -> KM B) : KM B :=
  fun s =>
    match m s with
    | (Return a, s') => k a s'
    | (Raise e, s') => (Raise e, s')
    end.

Declare Scope keys_scope.
Delimit Scope keys_scope with keys.
Notation "x <- m ;; k" := (kbind m (fun x => k))
  (at level 61, m at next level, right associativity) : keys_scope.
Notation "m ;; k" := (kbind m (fun _ => k))
  (at level 61, right associativity) : keys_scope.

Definition api_keys_store : KM (list (string * APIKey.t)) :=
  fun s => (Return (_api_keys_store s), s).

Definition next_key_id : KM Z := fun s => (Return (_next_key_id s), s).

Definition put_api_keys_store (d : list (string * APIKey.t)) : KM unit :=
  fun s => (Return tt, mkKeyClient d (_next_key_id s)).

Definition put_next_key_id (n : Z) : KM unit :=
  fun s => (Return tt, mkKeyClient (_api_keys_store s) n).

(** [d[k]] on the key store; a missing key raises KeyError, which carries
    no key here since [KeyError] of the token store holds an integer. *)
Definition key_subscript (k : string) (d : list (string * APIKey.t))
  : KM APIKey.t :=
  match Dict.lookup String.eqb k d with
  | Some a => kret a
  | None => kraise (KeyError 0)
  end.

(** [s[start:stop]] on a string *)
Definition str_slice (s : string) (start stop : Z) : string :=
  string_of_list_ascii (py_slice (list_ascii_of_string s) start stop).

(** the truth value of an optional integer: [None] and 0 are false *)
Definition int_truthy (x : option Z) : bool :=
  match x with
  | Some n => negb (n =? 0)
  | None => false
  end.

(** [datetime.now(datetime.UTC)]: the argument [datetime.UTC] is evaluated
    first and raises. *)
Definition utc_now : KM datetime := kraise no_UTC.

(** the copy that [get] and [list] build, with [api_key=None] *)
Definition without_secret (k : APIKey.t) : APIKey.t :=
  APIKey.mk (APIKey.key_id k) (APIKey.name k) (APIKey.key_prefix k)
    (APIKey.scopes k) (APIKey.created_at k) (APIKey.expires_at k)
    (APIKey.last_used_at k) (APIKey.disabled k) None.

(** [key.disabled = True] *)
Definition with_disabled (b : bool) (k : APIKey.t) : APIKey.t :=
  APIKey.mk (APIKey.key_id k) (APIKey.name k) (APIKey.key_prefix k)
    (APIKey.scopes k) (APIKey.created_at k) (APIKey.expires_at k)
    (APIKey.last_used_at k) b (APIKey.api_key k).

Module MockAPIKeysClient.

Local Open Scope keys_scope.
Local Open Scope string_scope.

(** [create].  [randint] is the value of [random.randint(10000, 99999)].
    The first clock read raises (see [utc_now]): the one of the expiry
    when [expires_in_days] is truthy, else the one of [created_at]; either
    way after the counter was incremented and before the key is stored. *)
Definition create (name : string) (scopes : list string)
  (expires_in_days : option Z) (randint : Z) : KM APIKeyCreated.t :=
  n <- next_key_id ;;
  let key_id := "key_" ++ format_int 10 dec_digit 8 n in
  put_next_key_id (n + 1) ;;
  let api_key_str := "ng_mock_" ++ key_id ++ "_" ++ format_d randint in
  expires_at <-
    match expires_in_days with
    | Some days =>
        if int_truthy expires_in_days
        then now <- utc_now ;; kret (Some (now + timedelta_days days))
        else kret None
    | None => kret None
    end ;;
  created_at <- utc_now ;;
  let api_key_obj :=
    APIKey.mk key_id name (str_slice api_key_str 0 7) scopes created_at
      expires_at None false None in
  store <- api_keys_store ;;
  put_api_keys_store (Dict.set String.eqb key_id api_key_obj store) ;;
  kret (APIKeyCreated.mk key_id name api_key_str (str_slice api_key_str 0 7)
          scopes (APIKey.created_at api_key_obj) expires_at false None).

(** [list] *)
Definition list_ : KM (list APIKey.t) :=
  store <- api_keys_store ;;
  kret (map without_secret (Dict.values store)).

(** [get] *)
Definition get (key_id : string) : KM APIKey.t :=
  store <- api_keys_store ;;
  if negb (Dict.mem String.eqb key_id store)
  then kraise (NotFoundError ("API key " ++ key_id ++ " not found")
                 "API_KEY_NOT_FOUND")
  else
    key <- key_subscript key_id store ;;
    kret (without_secret key).

(** [revoke]: the stored object is changed in place; no other reference to
    it exists, [get] and [list] hand out copies. *)
Definition revoke (key_id : string) : KM unit :=
  get key_id ;;
  store <- api_keys_store ;;
  key <- key_subscript key_id store ;;
  put_api_keys_store
    (Dict.set String.eqb key_id (with_disabled true key) store) ;;
  kret tt.

(** [delete] *)
Definition delete (key_id : string) : KM unit :=
  store <- api_keys_store ;;
  if negb (Dict.mem String.eqb key_id store)
  then kraise (NotFoundError ("API key " ++ key_id ++ " not found")
                 "API_KEY_NOT_FOUND")
  else
    put_api_keys_store (Dict.del String.eqb key_id store) ;;
    kret tt.

End MockAPIKeysClient.


(** [NotFoundError(f"API key {key_id} not found", "API_KEY_NOT_FOUND")] *)
Definition key_not_found (k : string) : Exception :=
  NotFoundError ("API key " ++ k ++ " not found") "API_KEY_NOT_FOUND".

(** Every stored key sits under its own key_id and has the mock prefix;
    no key id occurs twice. *)
Record key_store_wf (s : KeyClient) : Prop := mk_key_store_wf {
  kwf_entries :
    Forall (fun kv => APIKey.key_id (snd kv) = fst kv
                      /\ APIKey.key_prefix (snd kv) = "ng_mock"%string)
      (_api_keys_store s);
  kwf_nodup : NoDup (Dict.keys (_api_keys_store s))
}.

(** A client whose key store holds two keys. *)
Definition two_keys : KeyClient :=
  mkKeyClient
    [("key_00000001"%string,
      APIKey.mk "key_00000001" "ci" "ng_mock" ["tokens:read"%string] 100
        None None false None);
     ("key_00000002"%string,
      APIKey.mk "key_00000002" "ops" "ng_mock" [] 200 (Some 400) None false
        None)] 3.

(** ** Keyword names of the layers *)

(** the keyword of a layer in [create] and [update] *)
Definition layer_key (L : Layer) : string :=
  match L with
  | L1 => "l1_physical" | L2 => "l2_sensory" | L3 => "l3_motor"
  | L4 => "l4_emotional" | L5 => "l5_cognitive" | L6 => "l6_social"
  | L7 => "l7_temporal" | L8 => "l8_abstract"
  end.

(** the mapping given for a layer, if it is given and not empty *)
Definition given_layer (L : Layer) (a : LayerArgs)
  : option (list (string * Q)) :=
  match layer_arg L a with
  | Some m => if Dict.truthy m then Some m else None
  | None => None
  end.

(** ** [class TokensClient]: the request bodies of [create] and [query] *)

Module TokensClientRequests.

Local Open Scope string_scope.

(** a value of a JSON request body *)
Inductive BodyValue : Type :=
| JInt (n : Z)
| JFloat (x : Q)
| JBool (b : bool)
| JStr (s : string)
| JCoords (m : list (string * Q))
| JStrs (l : list string).

(** [if lN: payload[key] = lN] *)
Definition put_if_truthy (key : string) (d : option (list (string * Q)))
  (payload : list (string * BodyValue)) : list (string * BodyValue) :=
  match d with
  | Some m =>
      if Dict.truthy m then Dict.set String.eqb key (JCoords m) payload
      else payload
  | None => payload
  end.

(** The dictionary [payload] that [create] sends as the body of its POST
    request. *)
Definition payload (entity_type domain : Z)
  (weight field_radius field_strength : Q) (persistent : bool)
  (layers : LayerArgs) : list (string * BodyValue) :=
  let payload :=
    [("entity_type", JInt entity_type); ("domain", JInt domain);
     ("weight", JFloat weight); ("field_radius", JFloat field_radius);
     ("field_strength", JFloat field_strength);
     ("persistent", JBool persistent)] in
  let payload := put_if_truthy "l1_physical" (l1_physical layers) payload in
  let payload := put_if_truthy "l2_sensory" (l2_sensory layers) payload in
  let payload := put_if_truthy "l3_motor" (l3_motor layers) payload in
  let payload := put_if_truthy "l4_emotional" (l4_emotional layers) payload in
  let payload := put_if_truthy "l5_cognitive" (l5_cognitive layers) payload in
  let payload := put_if_truthy "l6_social" (l6_social layers) payload in
  let payload := put_if_truthy "l7_temporal" (l7_temporal layers) payload in
  let payload := put_if_truthy "l8_abstract" (l8_abstract layers) payload in
  payload.

(** The dictionary [query_data] that [query] sends; [if spaces:] is false
    for [None] and for the empty list. *)
Definition query_data (text : string) (limit : Z) (threshold : Q)
  (spaces : option (list string)) (include_connections : bool)
  : list (string * BodyValue) :=
  let query_data :=
    [("text", JStr text); ("limit", JInt limit);
     ("threshold", JFloat threshold);
     ("include_connections", JBool include_connections)] in
  match spaces with
  | Some (sp :: rest) =>
      Dict.set String.eqb "spaces" (JStrs (sp :: rest)) query_data
  | Some [] | None => query_data
  end.

End TokensClientRequests.

(** ** [AxiomClient._handle_error_response] (client.py) *)

Module AxiomClient.

(** a decoded JSON value; [JNull] is Python's [None] *)
#[local] Unset Elimination Schemes.
Inductive Json : Type :=
| JNull
| JBool (b : bool)
| JNum (x : Q)
| JStr (s : string)
| JArr (l : list Json)
| JObj (members : list (string * Json)).
#[local] Set Elimination Schemes.

(** What the handler reads of an [httpx.Response]: the status code, the
    result of [response.json()] ([None] when it raises), [response.text]
    and [response.headers.get("Retry-After")]. *)
Record Response : Type := mkResponse {
  status_code : Z;
  json : option Json;
  text : string;
  retry_after_header : option string
}.

Inductive ErrorClass : Type :=
| AuthenticationError
| AuthorizationError
| NotFoundError
| ValidationError
| ServerError
| AxiomError.

(** What the handler raises: an error of one of the classes above built
    from [(message, status_code, error_code, details)], a [RateLimitError]
    built from the same and [retry_after], or the [ValueError] of
    [int(retry_after)] on a text that is not an integer. *)
Inductive Raised : Type :=
| Api (cls : ErrorClass) (message : Json) (status : Z) (error_code : Json)
    (details : Json)
| RateLimitError (message : Json) (status : Z) (error_code : Json)
    (details : Json) (retry_after : option Z)
| ValueError (literal : string).

(** [obj.get(key, default)]; on a value that is not an object the call
    raises AttributeError, here [None]. *)
Definition get (obj : Json) (key : string) (default : Json) : option Json :=
  match obj with
  | JObj members => Some (Dict.get String.eqb key default members)
  | _ => None
  end.

(** The [try] block: message, error code and details of the body, or
    [None] when anything in it raises. *)
Definition read_error (r : Response) : option (Json * Json * Json) :=
  match json r with
  | None => None
  | Some data =>
      match get data "error" (JObj []) with
      | None => None
      | Some error =>
          match get error "message" (JStr (text r)),
                get error "code" JNull,
                get error "details" (JObj []) with
          | Some message, Some error_code, Some details =>
              Some (message, error_code, details)
          | _, _, _ => None
          end
      end
  end.

Section Handler.
(** [int(s)] on a string: the integer, or [None] when it raises
    ValueError. *)
Variable int_of_str : string -> option Z.

Definition _handle_error_response (r : Response) : Raised :=
  let '(message, error_code, details) :=
    match read_error r with
    | Some fields => fields
    | None => (JStr (text r), JNull, JObj [])
    end in
  let status := status_code r in
  if status =? 401 then Api AuthenticationError message status error_code details
  else if status =? 403
  then Api AuthorizationError message status error_code details
  else if status =? 404 then Api NotFoundError message status error_code details
  else if status =? 422
  then Api ValidationError message status error_code details
  else if status =? 429 then
    match retry_after_header r with
    | Some (String c s) =>
        match int_of_str (String c s) with
        | Some n => RateLimitError message status error_code details (Some n)
        | None => ValueError (String c s)
        end
    | Some EmptyString | None =>
        RateLimitError message status error_code details None
    end
  else if status >=? 500 then Api ServerError message status error_code details
  else Api AxiomError message status error_code details.
End Handler.

End AxiomClient.

(** ** [get_logger] (logging.py): the name of the logger *)

Definition LOGGER_NAME : string := "axiom".

Definition logger_name (name : option string) : string :=
  match name with
  | None => LOGGER_NAME
  | Some n =>
      if negb (String.prefix LOGGER_NAME n)
      then (LOGGER_NAME ++ "." ++ n)%string
      else n
  end.

(** * Properties *)

(** ** Bits of small numbers *)




(** ** What [create] does *)

(** [create] takes an id from the counter and raises: the token mapping is
    as before, the counter one higher. *)
Lemma create_spec et d w fr fs p layers (s : Client) :
  MockTokensClient.create et d w fr fs p layers s =
  (Raise no_UTC, mkClient (_tokens_store s) (_next_token_id s + 1)).
Proof. reflexivity. Qed.




Example pack_layout : IdentityCodec.pack 11 5 70000 = inr 3036746096.
Proof. reflexivity. Qed.

(** ** Dictionaries keyed by integers *)

Lemma mem_false_lookup {V : Type} (k : Z) (d : list (Z * V)) :
  Dict.mem Z.eqb k d = false <-> Dict.lookup Z.eqb k d = None.
Proof.
  induction d as [|[k' v] d IH]; simpl; [tauto|].
  destruct (Z.eqb k k'); simpl; [split; discriminate | exact IH].
Qed.

Lemma mem_true_lookup {V : Type} (k : Z) (d : list (Z * V)) :
  Dict.mem Z.eqb k d = true <-> exists v, Dict.lookup Z.eqb k d = Some v.
Proof.
  destruct (Dict.lookup Z.eqb k d) as [v|] eqn:E.
  - split; [eauto|intros _].
    destruct (Dict.mem Z.eqb k d) eqn:M; [reflexivity|].
    apply mem_false_lookup in M. congruence.
  - apply mem_false_lookup in E. rewrite E.
    split; [discriminate | intros [v Hv]; discriminate].
Qed.

Lemma mem_true_keys {V : Type} (k : Z) (d : list (Z * V)) :
  Dict.mem Z.eqb k d = true <-> In k (Dict.keys d).
Proof.
  unfold Dict.mem, Dict.keys. rewrite existsb_exists, in_map_iff. split.
  - intros [kv [Hin Hk]]. apply Z.eqb_eq in Hk. eauto.
  - intros [kv [Hk Hin]]. exists kv. split; [exact Hin|]. now apply Z.eqb_eq.
Qed.

Lemma lookup_set_same {V : Type} (k : Z) (v : V) (d : list (Z * V)) :
  Dict.lookup Z.eqb k (Dict.set Z.eqb k v d) = Some v.
Proof.
  induction d as [|[k' v'] d IH]; simpl.
  - now rewrite Z.eqb_refl.
  - destruct (Z.eqb k k') eqn:E; simpl; rewrite E; [reflexivity | exact IH].
Qed.

Lemma lookup_set_other {V : Type} (k k0 : Z) (v : V) (d : list (Z * V)) :
  k0 <> k ->
  Dict.lookup Z.eqb k0 (Dict.set Z.eqb k v d) = Dict.lookup Z.eqb k0 d.
Proof.
  intros Hne. induction d as [|[k' v'] d IH]; simpl.
  - now rewrite (proj2 (Z.eqb_neq k0 k)).
  - destruct (Z.eqb k k') eqn:E; simpl.
    + apply Z.eqb_eq in E. subst k'.
      now rewrite (proj2 (Z.eqb_neq k0 k)).
    + now rewrite IH.
Qed.

Lemma keys_set_present {V : Type} (k : Z) (v : V) (d : list (Z * V)) :
  Dict.mem Z.eqb k d = true ->
  Dict.keys (Dict.set Z.eqb k v d) = Dict.keys d.
Proof.
  induction d as [|[k' v'] d IH]; simpl; [discriminate|].
  destruct (Z.eqb k k') eqn:E; simpl; [reflexivity|].
  intros H. now rewrite IH.
Qed.

Lemma set_absent {V : Type} (k : Z) (v : V) (d : list (Z * V)) :
  Dict.mem Z.eqb k d = false -> Dict.set Z.eqb k v d = d ++ [(k, v)].
Proof.
  induction d as [|[k' v'] d IH]; simpl; [reflexivity|].
  destruct (Z.eqb k k') eqn:E; simpl; [discriminate|].
  intros H. now rewrite IH.
Qed.

Lemma lookup_del_same {V : Type} (k : Z) (d : list (Z * V)) :
  Dict.lookup Z.eqb k (Dict.del Z.eqb k d) = None.
Proof.
  induction d as [|[k' v'] d IH]; simpl; [reflexivity|].
  destruct (Z.eqb k k') eqn:E; simpl; [exact IH|].
  now rewrite E.
Qed.

Lemma lookup_del_other {V : Type} (k k0 : Z) (d : list (Z * V)) :
  k0 <> k ->
  Dict.lookup Z.eqb k0 (Dict.del Z.eqb k d) = Dict.lookup Z.eqb k0 d.
Proof.
  intros Hne. induction d as [|[k' v'] d IH]; simpl; [reflexivity|].
  destruct (Z.eqb k k') eqn:E; simpl.
  - apply Z.eqb_eq in E. subst k'.
    now rewrite (proj2 (Z.eqb_neq k0 k)).
  - now rewrite IH.
Qed.

Lemma lookup_In {V : Type} (k : Z) (v : V) (d : list (Z * V)) :
  Dict.lookup Z.eqb k d = Some v -> In (k, v) d.
Proof.
  induction d as [|[k' v'] d IH]; simpl; [discriminate|].
  destruct (Z.eqb k k') eqn:E.
  - apply Z.eqb_eq in E. intros [= ->]. left. now subst.
  - intros H. right. now apply IH.
Qed.

(** ** [get], [update], [delete] on a present and on an absent id *)

Lemma get_present (i : Z) (t : Token) (s : Client) :
  Dict.lookup Z.eqb i (_tokens_store s) = Some t ->
  MockTokensClient.get i s = (Return t, s).
Proof.
  intros H. unfold MockTokensClient.get, bind, tokens_store.
  rewrite (proj2 (mem_true_lookup i (_tokens_store s))) by eauto.
  simpl. unfold subscript. now rewrite H.
Qed.

Lemma get_absent (i : Z) (s : Client) :
  Dict.lookup Z.eqb i (_tokens_store s) = None ->
  MockTokensClient.get i s = (Raise (not_found i), s).
Proof.
  intros H. unfold MockTokensClient.get, bind, tokens_store.
  now rewrite (proj2 (mem_false_lookup i (_tokens_store s))).
Qed.

Lemma get_return_inv (i : Z) (t : Token) (s s' : Client) :
  MockTokensClient.get i s = (Return t, s') ->
  Dict.lookup Z.eqb i (_tokens_store s) = Some t /\ s' = s.
Proof.
  destruct (Dict.lookup Z.eqb i (_tokens_store s)) as [t0|] eqn:E.
  - rewrite (get_present _ _ _ E). now intros [= -> ->].
  - rewrite (get_absent _ _ E). discriminate.
Qed.

Lemma update_present (i : Z) (w fr fs : option Q) (layers : LayerArgs)
  (t : Token) (s : Client) :
  Dict.lookup Z.eqb i (_tokens_store s) = Some t ->
  MockTokensClient.update i w fr fs layers s =
  (Return (updated_token w fr fs layers t),
   mkClient (Dict.set Z.eqb i (updated_token w fr fs layers t)
               (_tokens_store s))
     (_next_token_id s)).
Proof.
  intros H. unfold MockTokensClient.update, bind at 1.
  rewrite (get_present _ _ _ H). destruct s; reflexivity.
Qed.

Lemma update_absent (i : Z) (w fr fs : option Q) (layers : LayerArgs)
  (s : Client) :
  Dict.lookup Z.eqb i (_tokens_store s) = None ->
  MockTokensClient.update i w fr fs layers s = (Raise (not_found i), s).
Proof.
  intros H. unfold MockTokensClient.update, bind at 1.
  now rewrite (get_absent _ _ H).
Qed.

Lemma delete_present (i : Z) (t : Token) (s : Client) :
  Dict.lookup Z.eqb i (_tokens_store s) = Some t ->
  MockTokensClient.delete i s =
  (Return true,
   mkClient (Dict.del Z.eqb i (_tokens_store s)) (_next_token_id s)).
Proof.
  intros H. unfold MockTokensClient.delete, bind, tokens_store.
  rewrite (proj2 (mem_true_lookup i (_tokens_store s))) by eauto.
  reflexivity.
Qed.

Lemma delete_absent (i : Z) (s : Client) :
  Dict.lookup Z.eqb i (_tokens_store s) = None ->
  MockTokensClient.delete i s = (Raise (not_found i), s).
Proof.
  intros H. unfold MockTokensClient.delete, bind, tokens_store.
  now rewrite (proj2 (mem_false_lookup i (_tokens_store s))).
Qed.

(** ** Coordinates *)

Lemma coord_assign_layer (L L' : Layer) (a : LayerArgs) (t : Token) :
  coord L (coordinates (assign_layer L' a t)) =
  if Layer_eqb L L'
  then layer_after (layer_arg L' a) (coord L (coordinates t))
  else coord L (coordinates t).
Proof.
  unfold assign_layer, layer_after.
  destruct (layer_arg L' a) as [[|kv m]|]; destruct L, L'; reflexivity.
Qed.

Lemma coordinates_assign_scalars (w fr fs : option Q) (t : Token) :
  coordinates (assign_if_given with_field_strength fs
                 (assign_if_given with_field_radius fr
                    (assign_if_given with_weight w t))) = coordinates t.
Proof. destruct w, fr, fs; reflexivity. Qed.

Lemma coord_updated (L : Layer) (w fr fs : option Q) (layers : LayerArgs)
  (t : Token) :
  coord L (coordinates (updated_token w fr fs layers t)) =
  layer_after (layer_arg L layers) (coord L (coordinates t)).
Proof.
  unfold updated_token. rewrite !coord_assign_layer.
  rewrite coordinates_assign_scalars.
  destruct L; reflexivity.
Qed.

Lemma coordinates_ext (c c' : Coordinates) :
  (forall L, coord L c = coord L c') -> c = c'.
Proof.
  intros H. destruct c, c'.
  pose proof (H L1); pose proof (H L2); pose proof (H L3); pose proof (H L4).
  pose proof (H L5); pose proof (H L6); pose proof (H L7); pose proof (H L8).
  simpl in *. congruence.
Qed.

(** C2, at its failing input: on a fresh client, [create] with L1 given as
    the zero vector and L2 not given takes id 1 from the counter and raises
    AttributeError before anything is stored, although the coordinates it
    had prepared are L1 = [0.0, 0.0, 0.0] and L2 absent; [get] on id 1 then
    raises NotFound instead of showing them. *)
Theorem zero_vector_create_raises :
  MockTokensClient.create 0 0 (1 # 2)%Q 1%Q 1%Q false
    (mkLayerArgs (Some zero_vector_args) None None None None None None None)
    init
  = (Raise no_UTC, mkClient [] 2)
  /\ MockTokensClient.get 1 (mkClient [] 2)
     = (Raise (not_found 1), mkClient [] 2)
  /\ xyz_or_none (Some zero_vector_args) = Some [0%Q; 0%Q; 0%Q]
  /\ xyz_or_none None = None.
Proof. repeat split. Qed.

(** C3, as stated, fails: a layer supplied as the empty mapping is not
    replaced.  Token 1 of [two_layer_token] has L4 = [0.5, 0.0, 0.0];
    after an update that supplies [{}] for L4 the layer still holds that
    vector, not the vector of the supplied mapping. *)
Lemma update_empty_mapping_not_replaced :
  ~ (forall i w fr fs layers t s L m,
        MockTokensClient.get i s = (Return t, s) ->
        layer_arg L layers = Some m ->
        exists t' s',
          MockTokensClient.update i w fr fs layers s = (Return t', s')
          /\ coord L (coordinates t')
             = Some [Dict.get String.eqb "x"%string 0%Q m;
                     Dict.get String.eqb "y"%string 0%Q m;
                     Dict.get String.eqb "z"%string 0%Q m]).
Proof.
  intros H.
  destruct (H 1 None None None
              (mkLayerArgs None None None (Some []) None None None None)
              _ two_layer_token L4 [] eq_refl eq_refl)
    as (t' & s' & E & C).
  injection E as <- _. discriminate C.
Qed.

(** C3, amended: on a stored token [update] succeeds and stores the token
    it returns.  A layer that is omitted, or supplied as the empty mapping,
    keeps its prior value, present or absent; a layer supplied as a
    non-empty mapping has its vector replaced by the x, y and z of the
    mapping, 0.0 for a missing one; and when no layer is supplied, as in an
    update of weight only, all eight layers are exactly as before. *)
Theorem update_partial_merge
  (i : Z) (w fr fs : option Q) (layers : LayerArgs) (t : Token) (s : Client) :
  MockTokensClient.get i s = (Return t, s) ->
  exists t' s',
    MockTokensClient.update i w fr fs layers s = (Return t', s')
    /\ MockTokensClient.get i s' = (Return t', s')
    /\ (forall L, layer_arg L layers = None \/ layer_arg L layers = Some [] ->
                  coord L (coordinates t') = coord L (coordinates t))
    /\ (forall L kv m, layer_arg L layers = Some (kv :: m) ->
          coord L (coordinates t')
          = Some [Dict.get String.eqb "x"%string 0%Q (kv :: m);
                  Dict.get String.eqb "y"%string 0%Q (kv :: m);
                  Dict.get String.eqb "z"%string 0%Q (kv :: m)])
    /\ ((forall L, layer_arg L layers = None) ->
        coordinates t' = coordinates t).
Proof.
  intros Hget. apply get_return_inv in Hget. destruct Hget as [Hl _].
  rewrite (update_present _ _ _ _ _ _ _ Hl).
  eexists _, _. split; [reflexivity|]. split; [|split; [|split]].
  - apply get_present. simpl. apply lookup_set_same.
  - intros L [HL|HL]; rewrite coord_updated, HL; reflexivity.
  - intros L kv m HL. rewrite coord_updated, HL. reflexivity.
  - intros Hnone. apply coordinates_ext. intros L.
    rewrite coord_updated, Hnone. reflexivity.
Qed.

(** an update of token 1 of [two_layer_token] that omits L1, gives L2 two
    components, supplies [{}] for L4 and changes the weight *)
Lemma update_partial_merge_witness :
  exists t' s',
    MockTokensClient.update 1 (Some (9 # 10)%Q) None None
      (mkLayerArgs None (Some [("x"%string, 1%Q); ("z"%string, 3%Q)]) None
         (Some []) None None None None) two_layer_token
    = (Return t', s')
    /\ MockTokensClient.get 1 s' = (Return t', s')
    /\ coord L1 (coordinates t') = Some [0%Q; 0%Q; 0%Q]
    /\ coord L2 (coordinates t') = Some [1%Q; 0%Q; 3%Q]
    /\ coord L3 (coordinates t') = None
    /\ coord L4 (coordinates t') = Some [(1 # 2)%Q; 0%Q; 0%Q].
Proof.
  destruct (update_partial_merge 1 (Some (9 # 10)%Q) None None
              (mkLayerArgs None (Some [("x"%string, 1%Q); ("z"%string, 3%Q)])
                 None (Some []) None None None None)
              _ two_layer_token eq_refl)
    as (t' & s' & E & G & Hkeep & Hrep & _).
  exists t', s'. split; [exact E|]. split; [exact G|].
  rewrite (Hkeep L1 (or_introl eq_refl)), (Hkeep L3 (or_introl eq_refl)),
    (Hkeep L4 (or_intror eq_refl)),
    (Hrep L2 ("x"%string, 1%Q) [("z"%string, 3%Q)] eq_refl).
  repeat split.
Defined.

(** ** The state left by a call *)

Lemma call_state (c : Call) (s : Client) : snd (call c s) = step c s.
Proof.
  destruct c as [et d w fr fs p layers | i | limit offset
                | i w fr fs layers | i | text limit th spaces ic uniform];
    unfold call, fmap, step.
  - rewrite create_spec. reflexivity.
  - destruct (Dict.lookup Z.eqb i (_tokens_store s)) as [t|] eqn:E.
    + now rewrite (get_present _ _ _ E).
    + now rewrite (get_absent _ _ E).
  - reflexivity.
  - destruct (Dict.lookup Z.eqb i (_tokens_store s)) as [t|] eqn:E.
    + now rewrite (update_present _ _ _ _ _ _ _ E).
    + now rewrite (update_absent _ _ _ _ _ _ E).
  - destruct (Dict.lookup Z.eqb i (_tokens_store s)) as [t|] eqn:E.
    + now rewrite (delete_present _ _ _ E).
    + now rewrite (delete_absent _ _ E).
  - reflexivity.
Qed.

Lemma run_app (cs cs' : list Call) (s : Client) :
  run (cs ++ cs') s = run cs' (run cs s).
Proof. revert s. induction cs as [|c cs IH]; intros s; simpl; auto. Qed.

(** An invariant of the calls that satisfy [ok] holds after any sequence of
    such calls. *)
Lemma run_invariant (ok : Call -> Prop) (P : Client -> Prop) :
  (forall c s, ok c -> P s -> P (step c s)) ->
  forall cs s, Forall ok cs -> P s -> P (run cs s).
Proof.
  intros Hstep cs. induction cs as [|c cs IH]; intros s Hok Hs; simpl.
  - exact Hs.
  - inversion Hok; subst. apply IH; [assumption|].
    rewrite call_state. now apply Hstep.
Qed.

Lemma in_set {V : Type} (k : Z) (v : V) (d : list (Z * V)) (x : Z * V) :
  In x (Dict.set Z.eqb k v d) -> x = (k, v) \/ In x d.
Proof.
  induction d as [|[k' v'] d IH]; simpl.
  - intros [<-|[]]. now left.
  - destruct (Z.eqb k k') eqn:E; simpl.
    + apply Z.eqb_eq in E. subst k'. intros [<-|H]; auto.
    + intros [<-|H]; auto. destruct (IH H); auto.
Qed.

Lemma in_del {V : Type} (k : Z) (d : list (Z * V)) (x : Z * V) :
  In x (Dict.del Z.eqb k d) -> In x d.
Proof. unfold Dict.del. rewrite filter_In. tauto. Qed.

(** ** Scalar attributes under [update] *)

Lemma scalars_assign_layer (L : Layer) (a : LayerArgs) (t : Token) :
  id (assign_layer L a t) = id t
  /\ weight (assign_layer L a t) = weight t
  /\ field_radius (assign_layer L a t) = field_radius t
  /\ field_strength (assign_layer L a t) = field_strength t.
Proof.
  unfold assign_layer. destruct (layer_arg L a) as [[|kv m]|]; simpl; auto.
Qed.

Lemma scalars_updated (w fr fs : option Q) (layers : LayerArgs) (t : Token) :
  id (updated_token w fr fs layers t) = id t
  /\ weight (updated_token w fr fs layers t) = given_or w (weight t)
  /\ field_radius (updated_token w fr fs layers t)
     = given_or fr (field_radius t)
  /\ field_strength (updated_token w fr fs layers t)
     = given_or fs (field_strength t).
Proof.
  unfold updated_token.
  repeat match goal with
         | |- context [assign_layer ?L ?a ?t] =>
             let H := fresh in
             pose proof (scalars_assign_layer L a t) as H;
             destruct H as (-> & -> & -> & ->)
         end.
  destruct w, fr, fs; simpl; auto.
Qed.

(** ** Attribute bounds *)

(** C4, as stated, fails: [update] with weight 5.0 on a stored token does
    not raise. *)
Lemma update_accepts_out_of_range :
  ~ (forall i x fr fs layers t s,
        MockTokensClient.get i s = (Return t, s) -> ~ weight_ok x ->
        exists e s',
          MockTokensClient.update i (Some x) fr fs layers s = (Raise e, s')).
Proof.
  intros H.
  destruct (H 1 5%Q None None no_layers _ one_token eq_refl) as (e & s' & E).
  - unfold weight_ok, Qle. simpl. lia.
  - discriminate E.
Qed.

(** C4, amended: [update] checks no range.  It fails only with NotFound,
    exactly when the id is not in the store, and then leaves the state as
    it was.  On a stored token it succeeds and stores each supplied weight,
    field_radius and field_strength as given, whatever its value, leaving
    the ones not supplied as they were.  The bounds are those that
    [TokenUpdate] declares: an update whose supplied attributes satisfy
    them, on a store whose tokens all satisfy them, leaves a store whose
    tokens all satisfy them. *)
Theorem update_stores_attributes_unchecked
  (i : Z) (w fr fs : option Q) (layers : LayerArgs) (s : Client) :
  (~ In i (Dict.keys (_tokens_store s)) ->
   MockTokensClient.update i w fr fs layers s = (Raise (not_found i), s))
  /\ (forall e s',
        MockTokensClient.update i w fr fs layers s = (Raise e, s') ->
        e = not_found i /\ s' = s /\ ~ In i (Dict.keys (_tokens_store s)))
  /\ (forall t,
        MockTokensClient.get i s = (Return t, s) ->
        exists t' s',
          MockTokensClient.update i w fr fs layers s = (Return t', s')
          /\ MockTokensClient.get i s' = (Return t', s')
          /\ weight t' = given_or w (weight t)
          /\ field_radius t' = given_or fr (field_radius t)
          /\ field_strength t' = given_or fs (field_strength t)
          /\ (attributes_in_bounds w fr fs -> store_in_bounds s ->
              store_in_bounds s')).
Proof.
  assert (A : Dict.lookup Z.eqb i (_tokens_store s) = None ->
              ~ In i (Dict.keys (_tokens_store s))).
  { intros E Hin. apply mem_true_keys, mem_true_lookup in Hin.
    destruct Hin as [t Ht]. congruence. }
  split; [|split].
  - intros Hn. apply update_absent.
    destruct (Dict.lookup Z.eqb i (_tokens_store s)) as [t|] eqn:E;
      [|reflexivity].
    exfalso. apply Hn. apply mem_true_keys, mem_true_lookup. eauto.
  - intros e s'.
    destruct (Dict.lookup Z.eqb i (_tokens_store s)) as [t|] eqn:E.
    + rewrite (update_present _ _ _ _ _ _ _ E). discriminate.
    + rewrite (update_absent _ _ _ _ _ _ E). intros [= <- <-]. auto.
  - intros t Hget. apply get_return_inv in Hget. destruct Hget as [Hl _].
    rewrite (update_present _ _ _ _ _ _ _ Hl).
    eexists _, _. split; [reflexivity|]. split.
    + apply get_present. simpl. apply lookup_set_same.
    + destruct (scalars_updated w fr fs layers t) as (_ & Hw & Hr & Hs).
      repeat split; try assumption.
      intros (Bw & Br & Bs) Hall. unfold store_in_bounds in *. simpl.
      rewrite Forall_forall in *. intros x Hx.
      apply in_set in Hx. destruct Hx as [->|Hx]; [|auto].
      destruct (Hall (i, t) (lookup_In _ _ _ Hl)) as (Tw & Tr & Ts).
      simpl in *. unfold token_in_bounds. rewrite Hw, Hr, Hs.
      destruct w, fr, fs; simpl in *; auto.
Qed.

(** weight 5.0 is stored as given; an update within the bounds keeps the
    store within them *)
Lemma update_stores_attributes_unchecked_witness :
  (exists t' s',
      MockTokensClient.update 1 (Some 5%Q) None None no_layers one_token
      = (Return t', s')
      /\ MockTokensClient.get 1 s' = (Return t', s')
      /\ weight t' = 5%Q
      /\ field_radius t' = 1%Q
      /\ field_strength t' = 1%Q)
  /\ MockTokensClient.update 7 (Some 5%Q) None None no_layers one_token
     = (Raise (not_found 7), one_token).
Proof.
  split.
  - destruct (proj2 (proj2 (update_stores_attributes_unchecked 1 (Some 5%Q)
                              None None no_layers one_token))
                _ eq_refl)
      as (t' & s' & E & G & Hw & Hr & Hs & _).
    exists t', s'. auto.
  - apply (proj1 (update_stores_attributes_unchecked 7 (Some 5%Q) None None
                    no_layers one_token)).
    simpl. intros [H|[]]. discriminate H.
Defined.

(** ** The store invariant *)

Lemma sorted_filter (f : Z -> bool) (l : list Z) :
  StronglySorted Z.lt l -> StronglySorted Z.lt (filter f l).
Proof.
  induction 1 as [|a l Hs IH Ha]; simpl; [constructor|].
  destruct (f a); [|assumption].
  constructor; [assumption|].
  rewrite Forall_forall in *. intros x Hx. apply Ha.
  apply filter_In in Hx. tauto.
Qed.

Lemma keys_del {V : Type} (k : Z) (d : list (Z * V)) :
  Dict.keys (Dict.del Z.eqb k d)
  = filter (fun k' => negb (Z.eqb k k')) (Dict.keys d).
Proof.
  induction d as [|[k' v] d IH]; simpl; [reflexivity|].
  destruct (Z.eqb k k'); simpl; now rewrite <- IH.
Qed.

Lemma below_not_mem {V : Type} (n : Z) (d : list (Z * V)) :
  Forall (fun k => k < n) (Dict.keys d) -> Dict.mem Z.eqb n d = false.
Proof.
  intros H. destruct (Dict.mem Z.eqb n d) eqn:E; [|reflexivity].
  apply mem_true_keys in E. rewrite Forall_forall in H.
  specialize (H _ E). lia.
Qed.

Lemma step_wf (c : Call) (s : Client) : store_wf s -> store_wf (step c s).
Proof.
  intros [Hs Hb Hi].
  destruct c as [et d w fr fs p layers | i | limit offset
                | i w fr fs layers | i | text limit th spaces ic uniform];
    simpl; try (now constructor).
  - constructor; simpl; try assumption.
    eapply Forall_impl; [|exact Hb]. simpl. intros; lia.
  - destruct (Dict.lookup Z.eqb i (_tokens_store s)) as [t|] eqn:E;
      [|now constructor].
    assert (M : Dict.mem Z.eqb i (_tokens_store s) = true)
      by (apply mem_true_lookup; eauto).
    constructor; simpl; rewrite ?(keys_set_present _ _ _ M); try assumption.
    rewrite Forall_forall in *. intros x Hx.
    apply in_set in Hx. destruct Hx as [->|Hx]; [|auto].
    simpl. destruct (scalars_updated w fr fs layers t) as (-> & _).
    apply (Hi (i, t)). now apply lookup_In.
  - destruct (Dict.lookup Z.eqb i (_tokens_store s)) as [t|] eqn:E;
      [|now constructor].
    constructor; simpl; rewrite ?keys_del.
    + now apply sorted_filter.
    + rewrite Forall_forall in *. intros x Hx.
      apply filter_In in Hx. apply Hb. tauto.
    + rewrite Forall_forall in *. intros x Hx.
      apply in_del in Hx. auto.
Qed.

Lemma init_wf : store_wf init.
Proof. constructor; simpl; constructor. Qed.

Lemma run_wf (cs : list Call) (s : Client) : store_wf s -> store_wf (run cs s).
Proof.
  intros H.
  apply (run_invariant (fun _ => True) store_wf); auto.
  - intros c s0 _. apply step_wf.
  - rewrite Forall_forall. auto.
Qed.

Lemma reachable_wf (s : Client) : reachable s -> store_wf s.
Proof. intros [cs ->]. apply run_wf, init_wf. Qed.

Lemma reachable_init : reachable init.
Proof. now exists []. Qed.

Lemma one_token_wf : store_wf one_token.
Proof.
  constructor; simpl; repeat constructor.
Qed.

Lemma two_tokens_wf : store_wf two_tokens.
Proof.
  constructor; simpl; repeat constructor.
Qed.

Lemma three_tokens_wf : store_wf three_tokens.
Proof.
  constructor; simpl; repeat constructor.
Qed.

(** No call adds a key to the token mapping. *)
Lemma step_keys (c : Call) (s : Client) (k : Z) :
  In k (Dict.keys (_tokens_store (step c s))) ->
  In k (Dict.keys (_tokens_store s)).
Proof.
  destruct c as [et d w fr fs p layers | i | limit offset
                | i w fr fs layers | i | text limit th spaces ic uniform];
    simpl; try tauto.
  - destruct (Dict.lookup Z.eqb i (_tokens_store s)) as [t|] eqn:E;
      [|tauto].
    assert (M : Dict.mem Z.eqb i (_tokens_store s) = true)
      by (apply mem_true_lookup; eauto).
    simpl. now rewrite (keys_set_present _ _ _ M).
  - destruct (Dict.lookup Z.eqb i (_tokens_store s)) as [t|] eqn:E;
      [|tauto].
    simpl. rewrite keys_del. intros H. apply filter_In in H. tauto.
Qed.

Lemma run_keys (cs : list Call) (s : Client) (k : Z) :
  In k (Dict.keys (_tokens_store (run cs s))) ->
  In k (Dict.keys (_tokens_store s)).
Proof.
  revert s. induction cs as [|c cs IH]; intros s; simpl; [tauto|].
  rewrite call_state. intros H. apply (step_keys c), IH, H.
Qed.

(** ** Lookup and removal *)

(** C5: on an id that is not a key of the store, [get] and [delete] raise
    NotFound; on an id that is a key, [get] returns the stored token and
    [delete] returns, removes that record and no other, and [get] on the id
    then raises NotFound. *)
Theorem get_delete_not_found_iff_absent (i : Z) (s : Client) :
  (~ In i (Dict.keys (_tokens_store s)) ->
   MockTokensClient.get i s = (Raise (not_found i), s)
   /\ MockTokensClient.delete i s = (Raise (not_found i), s))
  /\ (In i (Dict.keys (_tokens_store s)) ->
      (exists t, MockTokensClient.get i s = (Return t, s))
      /\ exists s',
          MockTokensClient.delete i s = (Return true, s')
          /\ ~ In i (Dict.keys (_tokens_store s'))
          /\ (forall j, j <> i ->
                Dict.lookup Z.eqb j (_tokens_store s')
                = Dict.lookup Z.eqb j (_tokens_store s))
          /\ _next_token_id s' = _next_token_id s
          /\ MockTokensClient.get i s' = (Raise (not_found i), s')).
Proof.
  split.
  - intros Hn.
    assert (E : Dict.lookup Z.eqb i (_tokens_store s) = None).
    { apply mem_false_lookup.
      destruct (Dict.mem Z.eqb i (_tokens_store s)) eqn:M; [|reflexivity].
      apply mem_true_keys in M. contradiction. }
    split; [now apply get_absent | now apply delete_absent].
  - intros Hin. apply mem_true_keys, mem_true_lookup in Hin.
    destruct Hin as [t E]. split.
    + exists t. now apply get_present.
    + rewrite (delete_present _ _ _ E). eexists. split; [reflexivity|].
      simpl. repeat split.
      * intros Hin. apply mem_true_keys, mem_true_lookup in Hin.
        destruct Hin as [t' E']. rewrite lookup_del_same in E'. discriminate.
      * intros j Hj. now apply lookup_del_other.
      * apply get_absent. simpl. apply lookup_del_same.
Qed.

Lemma get_delete_not_found_iff_absent_witness :
  (exists t, MockTokensClient.get 1 one_token = (Return t, one_token))
  /\ exists s',
      MockTokensClient.delete 1 one_token = (Return true, s')
      /\ ~ In 1 (Dict.keys (_tokens_store s'))
      /\ (forall j, j <> 1 ->
            Dict.lookup Z.eqb j (_tokens_store s')
            = Dict.lookup Z.eqb j (_tokens_store one_token))
      /\ _next_token_id s' = _next_token_id one_token
      /\ MockTokensClient.get 1 s' = (Raise (not_found 1), s').
Proof.
  apply (proj2 (get_delete_not_found_iff_absent 1 one_token)).
  simpl. auto.
Defined.

(** ** Slices *)

Lemma py_slice_nonneg {A : Type} (l : list A) (start len : Z) :
  0 <= start -> 0 <= len ->
  py_slice l start (start + len)
  = firstn (Z.to_nat len) (skipn (Z.to_nat start) l).
Proof.
  intros Hs Hl. unfold py_slice, clamp_index.
  rewrite (proj2 (Z.ltb_ge start 0)), (proj2 (Z.ltb_ge (start + len) 0)) by lia.
  set (n := Z.of_nat (List.length l)).
  destruct (Z.le_gt_cases n start) as [Hge|Hlt].
  - rewrite !Z.min_r by lia.
    rewrite !skipn_all2 by lia. now rewrite !firstn_nil.
  - rewrite (Z.min_l start n) by lia.
    destruct (Z.le_gt_cases (start + len) n) as [Hin|Hout].
    + rewrite Z.min_l by lia. f_equal. lia.
    + rewrite Z.min_r by lia.
      rewrite !firstn_all2; [reflexivity| |]; rewrite length_skipn; lia.
Qed.

Lemma firstn_pages {A : Type} (a b : nat) (l : list A) :
  firstn a l ++ firstn b (skipn a l) = firstn (a + b) l.
Proof.
  revert l. induction a as [|a IH]; intros l; simpl; [reflexivity|].
  destruct l as [|x l]; simpl; [now rewrite firstn_nil|].
  now rewrite IH.
Qed.

Lemma in_py_slice {A : Type} (l : list A) (a b : Z) (x : A) :
  In x (py_slice l a b) -> In x l.
Proof.
  unfold py_slice. intros H.
  set (n := Z.to_nat (clamp_index (Z.of_nat (List.length l)) a)) in *.
  set (m := Z.to_nat (clamp_index (Z.of_nat (List.length l)) b
                      - clamp_index (Z.of_nat (List.length l)) a)) in *.
  rewrite <- (firstn_skipn n l). apply in_or_app. right.
  rewrite <- (firstn_skipn m (skipn n l)). apply in_or_app. now left.
Qed.

(** ** Pagination *)

Lemma listing_ids_are_keys (s : Client) :
  store_wf s -> map id (listing s) = Dict.keys (_tokens_store s).
Proof.
  intros [_ _ Hi]. unfold listing, Dict.values, Dict.keys.
  induction Hi as [|kv d Hkv Hd IH]; simpl; [reflexivity|].
  now rewrite Hkv, IH.
Qed.

Lemma values_set_absent {V : Type} (k : Z) (v : V) (d : list (Z * V)) :
  ~ In k (Dict.keys d) ->
  Dict.values (Dict.set Z.eqb k v d) = Dict.values d ++ [v].
Proof.
  intros H.
  assert (M : Dict.mem Z.eqb k d = false).
  { destruct (Dict.mem Z.eqb k d) eqn:E; [|reflexivity].
    apply mem_true_keys in E. contradiction. }
  rewrite (set_absent _ _ _ M). unfold Dict.values. now rewrite map_app.
Qed.

(** C6: for every store state and non-negative [limit] and [offset],
    [list] returns, leaving the state as it was, the [limit] tokens that
    follow the first [offset] ones in the store's sequence (fewer where the
    sequence ends): the token at position [j] of the page is the token at
    position [offset + j] of the sequence, for [j] below [limit]; two
    consecutive pages put together are the one page of their joint size, so
    no token is split, skipped or repeated across a page boundary.  The
    sequence is the order in which the tokens were first stored: a token
    stored under an id that the mapping does not hold comes last, an
    [update] keeps every id at its position and a [delete] takes out its own
    id and keeps the others in their order. *)
Theorem list_is_slice_in_creation_order (limit offset : Z) (s : Client) :
  0 <= limit -> 0 <= offset ->
  MockTokensClient.list_ limit offset s
  = (Return (firstn (Z.to_nat limit) (skipn (Z.to_nat offset) (listing s))), s)
  /\ (List.length
        (firstn (Z.to_nat limit) (skipn (Z.to_nat offset) (listing s)))
      <= Z.to_nat limit)%nat
  /\ (forall j,
        nth_error
          (firstn (Z.to_nat limit) (skipn (Z.to_nat offset) (listing s))) j
        = if (j <? Z.to_nat limit)%nat
          then nth_error (listing s) (Z.to_nat offset + j)
          else None)
  /\ (forall limit' page page',
        0 <= limit' ->
        MockTokensClient.list_ limit offset s = (Return page, s) ->
        MockTokensClient.list_ limit' (offset + limit) s = (Return page', s) ->
        MockTokensClient.list_ (limit + limit') offset s
        = (Return (page ++ page'), s))
  /\ (forall k token n,
        ~ In k (Dict.keys (_tokens_store s)) ->
        listing (mkClient (Dict.set Z.eqb k token (_tokens_store s)) n)
        = listing s ++ [token])
  /\ (forall i w fr fs layers t' s',
        MockTokensClient.update i w fr fs layers s = (Return t', s') ->
        Dict.keys (_tokens_store s') = Dict.keys (_tokens_store s))
  /\ (forall i s',
        MockTokensClient.delete i s = (Return true, s') ->
        Dict.keys (_tokens_store s')
        = filter (fun k => negb (Z.eqb i k)) (Dict.keys (_tokens_store s))).
Proof.
  intros Hl Ho.
  assert (E : forall n o, 0 <= n -> 0 <= o ->
            MockTokensClient.list_ n o s
            = (Return (firstn (Z.to_nat n) (skipn (Z.to_nat o) (listing s))),
               s)).
  { intros n o Hn Hpos. unfold MockTokensClient.list_, bind, tokens_store, ret.
    now rewrite py_slice_nonneg. }
  split; [now apply E|]. split; [apply firstn_le_length|].
  split; [|split; [|split; [|split]]].
  - intros j. rewrite nth_error_firstn.
    destruct (j <? Z.to_nat limit)%nat; [|reflexivity].
    apply nth_error_skipn.
  - intros limit' page page' Hl' Hp Hp'.
    rewrite E in Hp, Hp' by lia. rewrite E by lia.
    injection Hp as <-. injection Hp' as <-.
    do 2 f_equal.
    rewrite !Z2Nat.inj_add by lia.
    rewrite <- firstn_pages, skipn_skipn.
    now rewrite (Nat.add_comm (Z.to_nat limit)).
  - intros k token n Hk. unfold listing. cbn [_tokens_store].
    now apply values_set_absent.
  - intros i w fr fs layers t' s'.
    destruct (Dict.lookup Z.eqb i (_tokens_store s)) as [t|] eqn:L.
    + rewrite (update_present _ _ _ _ _ _ _ L). intros [= _ <-].
      cbn [_tokens_store]. apply keys_set_present.
      apply mem_true_lookup. eauto.
    + rewrite (update_absent _ _ _ _ _ _ L). discriminate.
  - intros i s'.
    destruct (Dict.lookup Z.eqb i (_tokens_store s)) as [t|] eqn:L.
    + rewrite (delete_present _ _ _ L). intros [= <-].
      cbn [_tokens_store]. apply keys_del.
    + rewrite (delete_absent _ _ L). discriminate.
Qed.

Lemma list_is_slice_in_creation_order_witness :
  exists page page',
    MockTokensClient.list_ 1 1 three_tokens = (Return page, three_tokens)
    /\ map id page = [2]
    /\ MockTokensClient.list_ 5 2 three_tokens = (Return page', three_tokens)
    /\ map id page' = [4]
    /\ MockTokensClient.list_ 6 1 three_tokens
       = (Return (page ++ page'), three_tokens).
Proof.
  destruct (list_is_slice_in_creation_order 1 1 three_tokens)
    as (E & _ & _ & P & _); [lia | lia |].
  eexists _, _. split; [exact E|]. split; [reflexivity|].
  split; [reflexivity|]. split; [reflexivity|].
  apply (P 5 _ _ ltac:(lia) E eq_refl).
Defined.

Example list_pages_of_three :
  map (fun p => match MockTokensClient.list_ (fst p) (snd p) three_tokens with
                | (Return page, _) => map id page
                | (Raise _, _) => []
                end)
    [(2, 0); (2, 2); (2, 4); (0, 1); (10, 1)]
  = [[1; 2]; [4]; []; []; [2; 4]].
Proof. reflexivity. Qed.

(** ** Id allocation *)

Lemma next_token_id_step (c : Call) (s : Client) :
  _next_token_id (step c s)
  = match c with
    | CallCreate _ _ _ _ _ _ _ => _next_token_id s + 1
    | _ => _next_token_id s
    end.
Proof.
  destruct c as [et d w fr fs p layers | i | limit offset
                | i w fr fs layers | i | text limit th spaces ic uniform];
    simpl; try reflexivity;
    destruct (Dict.lookup Z.eqb i (_tokens_store s)); reflexivity.
Qed.

Lemma next_token_id_step_le (c : Call) (s : Client) :
  _next_token_id s <= _next_token_id (step c s).
Proof. rewrite next_token_id_step. destruct c; lia. Qed.

Lemma allocated_ids_cons (c : Call) (cs : list Call) (s : Client) :
  allocated_ids (c :: cs) s =
  match c with
  | CallCreate _ _ _ _ _ _ _ =>
      _next_token_id s :: allocated_ids cs (step c s)
  | _ => allocated_ids cs (step c s)
  end.
Proof. rewrite <- call_state. destruct c; reflexivity. Qed.

Lemma run_cons (c : Call) (cs : list Call) (s : Client) :
  run (c :: cs) s = run cs (step c s).
Proof. rewrite <- call_state. reflexivity. Qed.

(** The counter advances by one for each [create] call and by nothing else. *)
Lemma allocated_ids_count (cs : list Call) (s : Client) :
  _next_token_id (run cs s)
  = _next_token_id s + Z.of_nat (List.length (allocated_ids cs s)).
Proof.
  revert s. induction cs as [|c cs IH]; intros s; [simpl; lia|].
  rewrite run_cons, allocated_ids_cons, IH, next_token_id_step.
  destruct c; cbn [List.length]; lia.
Qed.

Lemma allocated_ids_from_counter (cs : list Call) (s : Client) :
  Forall (fun i => _next_token_id s <= i) (allocated_ids cs s).
Proof.
  revert s. induction cs as [|c cs IH]; intros s; [constructor|].
  rewrite allocated_ids_cons.
  assert (T : Forall (fun i => _next_token_id s <= i)
                (allocated_ids cs (step c s))).
  { eapply Forall_impl; [|apply IH]. simpl. intros i Hi.
    pose proof (next_token_id_step_le c s). lia. }
  destruct c; try exact T.
  constructor; [lia | exact T].
Qed.

Lemma allocated_ids_sorted (cs : list Call) (s : Client) :
  StronglySorted Z.lt (allocated_ids cs s).
Proof.
  revert s. induction cs as [|c cs IH]; intros s; [constructor|].
  rewrite allocated_ids_cons.
  destruct c; try apply IH.
  constructor; [apply IH|].
  eapply Forall_impl; [|apply allocated_ids_from_counter].
  simpl. intros i Hi. lia.
Qed.

(** C7: along any sequence of calls, from any state whose ids are below the
    allocation counter, the ids that the [create] calls take from the
    counter are strictly increasing, whether or not the call goes on to
    return; each is greater than every id the store holds when the sequence
    begins and than every id it holds when the sequence ends, no call
    adding an id to the store; and the counter ends one higher for each
    [create] call and is lowered by no call.  So an id that was ever taken,
    deleted since or not, is not taken again. *)
Theorem ids_never_recycled (cs : list Call) (s : Client) :
  Forall (fun k => k < _next_token_id s) (Dict.keys (_tokens_store s)) ->
  StronglySorted Z.lt (allocated_ids cs s)
  /\ Forall (fun i => Forall (fun k => k < i) (Dict.keys (_tokens_store s)))
       (allocated_ids cs s)
  /\ Forall (fun i =>
               Forall (fun k => k < i) (Dict.keys (_tokens_store (run cs s))))
       (allocated_ids cs s)
  /\ _next_token_id (run cs s)
     = _next_token_id s + Z.of_nat (List.length (allocated_ids cs s)).
Proof.
  intros Hb.
  assert (A : Forall (fun i => Forall (fun k => k < i)
                                 (Dict.keys (_tokens_store s)))
                (allocated_ids cs s)).
  { eapply Forall_impl; [|apply allocated_ids_from_counter].
    simpl. intros i Hi.
    eapply Forall_impl; [|exact Hb]. simpl. intros k Hk. lia. }
  split; [apply allocated_ids_sorted|]. split; [exact A|].
  split; [|apply allocated_ids_count].
  eapply Forall_impl; [|exact A]. simpl. intros i Hi.
  rewrite Forall_forall in *. intros k Hk. apply Hi.
  now apply (run_keys cs).
Qed.

Example allocated_ids_after_delete :
  allocated_ids [create_default; CallDelete 1; create_default; CallDelete 7;
                 create_default] init = [1; 2; 3].
Proof. reflexivity. Qed.

Lemma ids_never_recycled_witness :
  allocated_ids [CallDelete 2; create_default; CallDelete 1; create_default]
    two_tokens = [3; 4]
  /\ StronglySorted Z.lt
       (allocated_ids
          [CallDelete 2; create_default; CallDelete 1; create_default]
          two_tokens)
  /\ Forall
       (fun i => Forall (fun k => k < i) (Dict.keys (_tokens_store two_tokens)))
       (allocated_ids
          [CallDelete 2; create_default; CallDelete 1; create_default]
          two_tokens)
  /\ _next_token_id
       (run [CallDelete 2; create_default; CallDelete 1; create_default]
          two_tokens) = 5.
Proof.
  destruct (ids_never_recycled
              [CallDelete 2; create_default; CallDelete 1; create_default]
              two_tokens) as (S & A & _ & N).
  - simpl. repeat constructor.
  - split; [reflexivity|]. split; [exact S|]. split; [exact A|].
    rewrite N. reflexivity.
Defined.

(** ** Failing calls *)

(** C8: whenever a call of [create], [get], [list], [update], [delete] or
    [query] raises a structural error, the client state (token mapping and
    allocation counter) after the call is the state before it.  In detail:
    whatever [get], [update] or [delete] raises is NotFound for an id that
    is not in the store, and the state is unchanged; what [create] raises
    is not a structural error (it is the AttributeError of its timestamp),
    and that call keeps the token mapping and leaves the counter one
    higher. *)
Theorem failed_call_leaves_state (s : Client) :
  (forall c e s', call c s = (Raise e, s') -> structural e -> s' = s)
  /\ (forall et d w fr fs p layers e s',
        MockTokensClient.create et d w fr fs p layers s = (Raise e, s') ->
        e = no_UTC /\ ~ structural e
        /\ _tokens_store s' = _tokens_store s
        /\ _next_token_id s' = _next_token_id s + 1)
  /\ (forall i e s',
        MockTokensClient.get i s = (Raise e, s') ->
        s' = s /\ e = not_found i /\ ~ In i (Dict.keys (_tokens_store s)))
  /\ (forall i w fr fs layers e s',
        MockTokensClient.update i w fr fs layers s = (Raise e, s') ->
        s' = s /\ e = not_found i /\ ~ In i (Dict.keys (_tokens_store s)))
  /\ (forall i e s',
        MockTokensClient.delete i s = (Raise e, s') ->
        s' = s /\ e = not_found i /\ ~ In i (Dict.keys (_tokens_store s))).
Proof.
  assert (A : forall i, Dict.lookup Z.eqb i (_tokens_store s) = None ->
                        ~ In i (Dict.keys (_tokens_store s))).
  { intros i E Hin. apply mem_true_keys, mem_true_lookup in Hin.
    destruct Hin as [t Ht]. congruence. }
  assert (G : forall i e s',
             MockTokensClient.get i s = (Raise e, s') ->
             s' = s /\ e = not_found i
             /\ ~ In i (Dict.keys (_tokens_store s))).
  { intros i e s'.
    destruct (Dict.lookup Z.eqb i (_tokens_store s)) as [t|] eqn:E.
    + rewrite (get_present _ _ _ E). discriminate.
    + rewrite (get_absent _ _ E). intros [= <- <-]. auto. }
  assert (U : forall i w fr fs layers e s',
             MockTokensClient.update i w fr fs layers s = (Raise e, s') ->
             s' = s /\ e = not_found i
             /\ ~ In i (Dict.keys (_tokens_store s))).
  { intros i w fr fs layers e s'.
    destruct (Dict.lookup Z.eqb i (_tokens_store s)) as [t|] eqn:E.
    + rewrite (update_present _ _ _ _ _ _ _ E). discriminate.
    + rewrite (update_absent _ _ _ _ _ _ E). intros [= <- <-]. auto. }
  assert (D : forall i e s',
             MockTokensClient.delete i s = (Raise e, s') ->
             s' = s /\ e = not_found i
             /\ ~ In i (Dict.keys (_tokens_store s))).
  { intros i e s'.
    destruct (Dict.lookup Z.eqb i (_tokens_store s)) as [t|] eqn:E.
    + rewrite (delete_present _ _ _ E). discriminate.
    + rewrite (delete_absent _ _ E). intros [= <- <-]. auto. }
  assert (C : forall et d w fr fs p layers e s',
             MockTokensClient.create et d w fr fs p layers s = (Raise e, s') ->
             e = no_UTC /\ ~ structural e
             /\ _tokens_store s' = _tokens_store s
             /\ _next_token_id s' = _next_token_id s + 1).
  { intros et d w fr fs p layers e s'. rewrite create_spec.
    intros [= <- <-]. split; [reflexivity|]. split; [|split; reflexivity].
    intros (m & c & H). discriminate H. }
  split; [|split; [exact C|split; [exact G|split; [exact U|exact D]]]].
  intros c e s' H St.
  destruct c as [et d w fr fs p layers | i | limit offset
                | i w fr fs layers | i | text limit th spaces ic uniform];
    unfold call, fmap in H.
  - destruct (MockTokensClient.create et d w fr fs p layers s)
      as [[v|e0] s0] eqn:E; [discriminate|].
    injection H as <- <-. now destruct (C _ _ _ _ _ _ _ _ _ E) as (_ & N & _).
  - destruct (MockTokensClient.get i s) as [[v|e0] s0] eqn:E; [discriminate|].
    injection H as <- <-. now destruct (G _ _ _ E).
  - discriminate H.
  - destruct (MockTokensClient.update i w fr fs layers s)
      as [[v|e0] s0] eqn:E; [discriminate|].
    injection H as <- <-. now destruct (U _ _ _ _ _ _ _ E).
  - destruct (MockTokensClient.delete i s) as [[v|e0] s0] eqn:E;
      [discriminate|].
    injection H as <- <-. now destruct (D _ _ _ E).
  - discriminate H.
Qed.

Lemma failed_call_leaves_state_witness :
  exists e s',
    MockTokensClient.update 7 (Some 1%Q) None None no_layers two_tokens
    = (Raise e, s')
    /\ s' = two_tokens /\ e = not_found 7
    /\ ~ In 7 (Dict.keys (_tokens_store two_tokens)).
Proof.
  eexists _, _. split; [reflexivity|].
  apply (proj1 (proj2 (proj2 (proj2 (failed_call_leaves_state two_tokens))))
           7 (Some 1%Q) None None no_layers).
  reflexivity.
Defined.

Example create_changes_the_counter :
  call create_default two_tokens
  = (Raise no_UTC, mkClient (_tokens_store two_tokens) 4).
Proof. reflexivity. Qed.

(** ** Layers are never cleared *)

Lemma assign_layer_empty (L L' : Layer) (a : LayerArgs) (t : Token) :
  assign_layer L' (set_layer_arg L (Some []) a) t
  = assign_layer L' (set_layer_arg L None a) t.
Proof. destruct L, L'; reflexivity. Qed.

Lemma updated_token_empty (L : Layer) (w fr fs : option Q) (a : LayerArgs)
  (t : Token) :
  updated_token w fr fs (set_layer_arg L (Some []) a) t
  = updated_token w fr fs (set_layer_arg L None a) t.
Proof. unfold updated_token. now rewrite !assign_layer_empty. Qed.

Lemma in_set_value (k : string) (v : TokensClient.BodyValue)
  (d : list (string * TokensClient.BodyValue))
  (x : string * TokensClient.BodyValue) :
  In x (Dict.set String.eqb k v d) -> snd x = v \/ In x d.
Proof.
  induction d as [|[k' v'] d IH]; simpl.
  - intros [<-|[]]. now left.
  - destruct (String.eqb k k'); simpl.
    + intros [<-|H]; auto.
    + intros [<-|H]; auto. destruct (IH H); auto.
Qed.

Lemma in_put_if_given (key : string) (o : option Q)
  (acc : list (string * TokensClient.BodyValue))
  (x : string * TokensClient.BodyValue) :
  In x (TokensClient.put_if_given key o acc) ->
  (exists a, snd x = TokensClient.BFloat a) \/ In x acc.
Proof.
  unfold TokensClient.put_if_given. destruct o as [a|]; [|auto].
  intros H. apply in_set_value in H. destruct H; eauto.
Qed.

Lemma in_put_if_truthy (key : string) (d : option (list (string * Q)))
  (acc : list (string * TokensClient.BodyValue))
  (x : string * TokensClient.BodyValue) :
  In x (TokensClient.put_if_truthy key d acc) ->
  (exists m, d = Some m /\ m <> [] /\ snd x = TokensClient.BCoords m)
  \/ In x acc.
Proof.
  unfold TokensClient.put_if_truthy. destruct d as [[|kv m]|]; simpl; auto.
  intros H. apply in_set_value in H. destruct H as [H|H]; [|auto].
  left. exists (kv :: m). repeat split; [discriminate | exact H].
Qed.

Lemma update_data_coords_nonempty (w fr fs : option Q) (layers : LayerArgs)
  (k : string) (m : list (string * Q)) :
  In (k, TokensClient.BCoords m) (TokensClient.update_data w fr fs layers) ->
  m <> [] /\ exists L, layer_arg L layers = Some m.
Proof.
  unfold TokensClient.update_data. intros H.
  repeat (apply in_put_if_truthy in H;
          destruct H as [(m0 & E & Hne & Hx)|H];
          [simpl in Hx; injection Hx as <-; split; [exact Hne|];
           first [ now exists L1 | now exists L2 | now exists L3
                 | now exists L4 | now exists L5 | now exists L6
                 | now exists L7 | now exists L8 ] |]).
  repeat (apply in_put_if_given in H;
          destruct H as [[a Hx]|H]; [discriminate Hx|]).
  destruct H.
Qed.

Lemma update_data_empty (L : Layer) (w fr fs : option Q) (layers : LayerArgs) :
  TokensClient.update_data w fr fs (set_layer_arg L (Some []) layers)
  = TokensClient.update_data w fr fs (set_layer_arg L None layers).
Proof. destruct L; reflexivity. Qed.

(** C9: on a stored token, whatever the arguments of [update], a layer that
    holds a vector before the call holds a vector after it: the layer's
    argument either replaces the vector or leaves the layer as it was.  An
    empty mapping given for a layer makes the same call as leaving that
    layer out, in the mock client and in the request body that
    [TokensClient.update] sends, and every coordinates entry of that body is
    a non-empty mapping given for a layer. *)
Theorem update_never_clears_layer
  (i : Z) (w fr fs : option Q) (layers : LayerArgs) (t : Token) (s : Client) :
  MockTokensClient.get i s = (Return t, s) ->
  (exists t' s',
      MockTokensClient.update i w fr fs layers s = (Return t', s')
      /\ MockTokensClient.get i s' = (Return t', s')
      /\ forall L v,
          coord L (coordinates t) = Some v ->
          (coord L (coordinates t') = Some v
           \/ exists m, layer_arg L layers = Some m /\ m <> []
                        /\ coord L (coordinates t') = Some (xyz m)))
  /\ (forall L,
        MockTokensClient.update i w fr fs (set_layer_arg L (Some []) layers) s
        = MockTokensClient.update i w fr fs (set_layer_arg L None layers) s
        /\ TokensClient.update_data w fr fs (set_layer_arg L (Some []) layers)
           = TokensClient.update_data w fr fs (set_layer_arg L None layers))
  /\ (forall k m,
        In (k, TokensClient.BCoords m)
          (TokensClient.update_data w fr fs layers) ->
        m <> [] /\ exists L, layer_arg L layers = Some m).
Proof.
  intros Hget. apply get_return_inv in Hget. destruct Hget as [Hl _]. split.
  - rewrite (update_present _ _ _ _ _ _ _ Hl).
    eexists _, _. split; [reflexivity|]. split.
    + apply get_present. simpl. apply lookup_set_same.
    + intros L v Hv. rewrite coord_updated. unfold layer_after.
      destruct (layer_arg L layers) as [[|kv m]|] eqn:E; simpl; auto.
      right. exists (kv :: m). repeat split. discriminate.
  - split.
    + intros L. rewrite !(update_present _ _ _ _ _ _ _ Hl).
      rewrite updated_token_empty. split; [reflexivity|].
      apply update_data_empty.
    + intros k m. apply update_data_coords_nonempty.
Qed.

Lemma update_never_clears_layer_witness :
  exists t,
    MockTokensClient.get 1 two_layer_token = (Return t, two_layer_token)
    /\ coord L1 (coordinates t) = Some [0%Q; 0%Q; 0%Q]
    /\ (exists t' s',
          MockTokensClient.update 1 None None None
            (mkLayerArgs (Some []) None None
               (Some [("y"%string, 2%Q)]) None None None None)
            two_layer_token = (Return t', s')
          /\ MockTokensClient.get 1 s' = (Return t', s')
          /\ forall L v,
              coord L (coordinates t) = Some v ->
              (coord L (coordinates t') = Some v
               \/ exists m,
                   layer_arg L
                     (mkLayerArgs (Some []) None None
                        (Some [("y"%string, 2%Q)]) None None None None)
                   = Some m
                   /\ m <> [] /\ coord L (coordinates t') = Some (xyz m))).
Proof.
  eexists. split; [reflexivity|]. split; [reflexivity|].
  apply (update_never_clears_layer 1 None None None
           (mkLayerArgs (Some []) None None
              (Some [("y"%string, 2%Q)]) None None None None)
           _ two_layer_token eq_refl).
Defined.

(** ** Query *)

Lemma length_insert_by_score (r : TokenQueryResult) (l : list TokenQueryResult) :
  List.length (insert_by_score r l) = S (List.length l).
Proof.
  induction l as [|r' l IH]; simpl; [reflexivity|].
  destruct (Qle_bool (score r') (score r)); simpl; [reflexivity|].
  now rewrite IH.
Qed.

Lemma length_sort_by_score (l : list TokenQueryResult) :
  List.length (sort_by_score l) = List.length l.
Proof.
  induction l as [|r l IH]; simpl; [reflexivity|].
  now rewrite length_insert_by_score, IH.
Qed.

Lemma in_insert_by_score (x r : TokenQueryResult) (l : list TokenQueryResult) :
  In x (insert_by_score r l) -> x = r \/ In x l.
Proof.
  induction l as [|r' l IH]; simpl.
  - intros [<-|[]]. now left.
  - destruct (Qle_bool (score r') (score r)); simpl.
    + intros [<-|[<-|H]]; auto.
    + intros [<-|H]; auto. destruct (IH H); auto.
Qed.

Lemma in_sort_by_score (x : TokenQueryResult) (l : list TokenQueryResult) :
  In x (sort_by_score l) -> In x l.
Proof.
  induction l as [|r l IH]; simpl; [auto|].
  intros H. apply in_insert_by_score in H. destruct H as [->|H]; auto.
Qed.

Lemma insert_by_score_sorted (r : TokenQueryResult) (l : list TokenQueryResult) :
  StronglySorted score_ge l -> StronglySorted score_ge (insert_by_score r l).
Proof.
  induction 1 as [|r' l Hs IH Hr']; simpl.
  - repeat constructor.
  - destruct (Qle_bool (score r') (score r)) eqn:E.
    + apply Qle_bool_iff in E.
      constructor; [now constructor|].
      constructor; [exact E|].
      eapply Forall_impl; [|exact Hr']. unfold score_ge. simpl.
      intros x Hx. now apply Qle_trans with (score r').
    + constructor; [exact IH|].
      rewrite Forall_forall in *. intros x Hx.
      apply in_insert_by_score in Hx. destruct Hx as [->|Hx]; [|auto].
      unfold score_ge. apply Qlt_le_weak, Qnot_le_lt.
      intros Hle. apply Qle_bool_iff in Hle. congruence.
Qed.

Lemma sort_by_score_sorted (l : list TokenQueryResult) :
  StronglySorted score_ge (sort_by_score l).
Proof.
  induction l as [|r l IH]; simpl; [constructor|].
  now apply insert_by_score_sorted.
Qed.

Lemma length_query_loop (th : option Q) (uniform : nat -> Q) (i : nat)
  (tokens : list Token) :
  (List.length (MockTokensClient.query_loop th uniform i tokens)
   <= List.length tokens)%nat.
Proof.
  revert i. induction tokens as [|t tokens IH]; intros i; simpl; [lia|].
  specialize (IH (S i)).
  destruct th as [x|]; [destruct (Qle_bool x (uniform i))|]; simpl; lia.
Qed.

Lemma in_query_loop (th : option Q) (uniform : nat -> Q) (i : nat)
  (tokens : list Token) (r : TokenQueryResult) :
  In r (MockTokensClient.query_loop th uniform i tokens) ->
  exists t, In t tokens /\ token_id r = Some (id t).
Proof.
  revert i. induction tokens as [|t tokens IH]; intros i; simpl; [tauto|].
  assert (T : In r (MockTokensClient.query_loop th uniform (S i) tokens) ->
              exists t0, (t = t0 \/ In t0 tokens) /\ token_id r = Some (id t0)).
  { intros H. destruct (IH _ H) as (t0 & Ht0 & E). eauto. }
  destruct th as [x|]; [destruct (Qle_bool x (uniform i))|]; simpl; auto;
    intros [<-|H]; auto; exists t; auto.
Qed.

Lemma length_py_slice_prefix {A : Type} (l : list A) (limit : Z) :
  0 <= limit -> Z.of_nat (List.length (py_slice l 0 limit)) <= limit.
Proof.
  intros H. change limit with (0 + limit) at 1.
  rewrite (py_slice_nonneg l 0 limit) by lia.
  pose proof (firstn_le_length (Z.to_nat limit) (skipn (Z.to_nat 0) l)). lia.
Qed.

(** C10, as stated, fails: with limit -1 on a fresh client [query] returns
    the empty list, whose length 0 is more than -1. *)
Lemma query_negative_limit_exceeds :
  ~ (forall text limit th spaces ic uniform s rs,
        reachable s ->
        MockTokensClient.query text limit th spaces ic uniform s
        = (Return rs, s) ->
        Z.of_nat (List.length rs) <= limit).
Proof.
  intros H.
  specialize (H "q"%string (-1) (Some 0%Q) None false
                (fun _ => (7 # 10)%Q) init _ reachable_init eq_refl).
  simpl in H. lia.
Qed.

(** C10, amended: in a store whose tokens sit under their own ids, in
    increasing order and below the allocation counter, [query] returns and
    leaves the state as it was; for every non-negative limit the result
    holds at most that many entries; for every limit its scores are in
    non-increasing order and each entry carries the id of a token that
    [get] finds in the store. *)
Theorem query_capped_sorted_view
  (text : string) (limit : Z) (th : option Q) (spaces : option (list string))
  (ic : bool) (uniform : nat -> Q) (s : Client) :
  store_wf s ->
  exists rs,
    MockTokensClient.query text limit th spaces ic uniform s = (Return rs, s)
    /\ (0 <= limit -> Z.of_nat (List.length rs) <= limit)
    /\ StronglySorted score_ge rs
    /\ Forall (fun r => exists i t,
                   token_id r = Some i
                   /\ MockTokensClient.get i s = (Return t, s)
                   /\ id t = i) rs.
Proof.
  intros [_ _ Hi].
  eexists. split; [reflexivity|]. split; [|split].
  - intros Hl. rewrite length_sort_by_score.
    pose proof (length_query_loop th uniform 0
                  (py_slice (Dict.values (_tokens_store s)) 0 limit)).
    pose proof (length_py_slice_prefix (Dict.values (_tokens_store s)) limit Hl).
    lia.
  - apply sort_by_score_sorted.
  - rewrite Forall_forall. intros r Hin.
    apply in_sort_by_score, in_query_loop in Hin.
    destruct Hin as (t & Ht & E).
    apply in_py_slice in Ht. unfold Dict.values in Ht.
    apply in_map_iff in Ht. destruct Ht as ([k t0] & <- & Hkt).
    rewrite Forall_forall in Hi. pose proof (Hi _ Hkt) as Hid. simpl in *.
    assert (M : exists t', Dict.lookup Z.eqb k (_tokens_store s) = Some t').
    { apply mem_true_lookup, mem_true_keys.
      unfold Dict.keys. apply in_map_iff. now exists (k, t0). }
    destruct M as [t' Ht'].
    exists k, t'. split; [congruence|]. split; [now apply get_present|].
    apply (Hi (k, t')). now apply lookup_In.
Qed.

Lemma query_capped_sorted_view_witness :
  exists rs,
    MockTokensClient.query "q"%string 1 (Some 0%Q) None false
      (fun n => (Z.of_nat n + 7 # 10)%Q) two_tokens = (Return rs, two_tokens)
    /\ (0 <= 1 -> Z.of_nat (List.length rs) <= 1)
    /\ StronglySorted score_ge rs
    /\ Forall (fun r => exists i t,
                   token_id r = Some i
                   /\ MockTokensClient.get i two_tokens = (Return t, two_tokens)
                   /\ id t = i) rs.
Proof.
  apply (query_capped_sorted_view "q"%string 1 (Some 0%Q) None false
           (fun n => (Z.of_nat n + 7 # 10)%Q) two_tokens).
  exact two_tokens_wf.
Defined.

Example query_sorts_descending :
  map score
    (match MockTokensClient.query "q"%string 10 (Some (3 # 4)%Q) None false
             (fun n => (Z.of_nat n + 7 # 10)%Q) two_tokens with
     | (Return rs, _) => rs
     | (Raise _, _) => []
     end) = [(8 # 10)%Q].
Proof. reflexivity. Qed.

(** ** Worked values *)

Example format_08X_255 : format_08X 255 = "000000FF"%string.
Proof. reflexivity. Qed.

Example format_d_1203 : format_d 1203 = "1203"%string.
Proof. reflexivity. Qed.

Example py_slice_negative_stop : py_slice [1; 2; 3] 0 (-1) = [1; 2].
Proof. reflexivity. Qed.

Example create_on_fresh_client :
  MockTokensClient.create 1 0 (8 # 10)%Q 1%Q 1%Q false
    (mkLayerArgs (Some [("x"%string, 10%Q); ("y"%string, 20%Q);
                        ("z"%string, 30%Q)])
       None None None None None None None) init
  = (Raise no_UTC, mkClient [] 2).
Proof. reflexivity. Qed.

Example query_negative_limit_on_two_tokens :
  match MockTokensClient.query "q"%string (-1) None None false
          (fun _ => (7 # 10)%Q) two_tokens with
  | (Return rs, _) => map token_id rs
  | (Raise _, _) => []
  end = [Some 1].
Proof. reflexivity. Qed.

(** * Further properties of the token store *)

(** ** [create] never stores *)

Lemma py_slice_nil {A : Type} (a b : Z) : py_slice (@nil A) a b = [].
Proof. unfold py_slice. now rewrite skipn_nil, firstn_nil. Qed.

Lemma run_init_store (cs : list Call) : _tokens_store (run cs init) = [].
Proof.
  destruct (_tokens_store (run cs init)) as [|[k t] d] eqn:E; [reflexivity|].
  exfalso. apply (run_keys cs init k). rewrite E. now left.
Qed.

(** X1: [create] raises AttributeError on every call, in every state and
    for all arguments: it returns no token, leaves the token mapping as it
    was and the counter one higher.  So on a client that started from
    [__init__] no sequence of calls stores a token: the mapping stays empty,
    [get] raises NotFound for every id, [list] returns the empty page and
    [query] the empty result. *)
Theorem create_never_stores (cs : list Call) :
  (forall et d w fr fs p layers s,
      MockTokensClient.create et d w fr fs p layers s
      = (Raise no_UTC, mkClient (_tokens_store s) (_next_token_id s + 1)))
  /\ _tokens_store (run cs init) = []
  /\ (forall i,
        MockTokensClient.get i (run cs init)
        = (Raise (not_found i), run cs init))
  /\ (forall limit offset,
        MockTokensClient.list_ limit offset (run cs init)
        = (Return [], run cs init))
  /\ (forall text limit th spaces ic uniform,
        MockTokensClient.query text limit th spaces ic uniform (run cs init)
        = (Return [], run cs init)).
Proof.
  split; [intros; apply create_spec|].
  pose proof (run_init_store cs) as E. revert E.
  generalize (run cs init). intros [store n]. cbn [_tokens_store].
  intros ->. repeat split.
  - intros limit offset.
    unfold MockTokensClient.list_, bind, tokens_store, ret.
    cbn [_tokens_store Dict.values map]. now rewrite py_slice_nil.
  - intros text limit th spaces ic uniform.
    unfold MockTokensClient.query, bind, tokens_store, ret.
    cbn [_tokens_store Dict.values map]. now rewrite py_slice_nil.
Qed.

Example three_creates_store_nothing :
  run [create_default; create_default; create_default] init = mkClient [] 4.
Proof. reflexivity. Qed.

(** ** [update] keeps what it is not given *)

Lemma identity_assign_layer (L : Layer) (a : LayerArgs) (t : Token) :
  id_hex (assign_layer L a t) = id_hex t
  /\ local_id (assign_layer L a t) = local_id t
  /\ entity_type (assign_layer L a t) = entity_type t
  /\ domain (assign_layer L a t) = domain t
  /\ timestamp (assign_layer L a t) = timestamp t
  /\ age_seconds (assign_layer L a t) = age_seconds t
  /\ flags (assign_layer L a t) = flags t.
Proof.
  unfold assign_layer.
  destruct (layer_arg L a) as [[|kv m]|]; simpl; repeat split.
Qed.

Lemma identity_updated (w fr fs : option Q) (layers : LayerArgs) (t : Token) :
  id_hex (updated_token w fr fs layers t) = id_hex t
  /\ local_id (updated_token w fr fs layers t) = local_id t
  /\ entity_type (updated_token w fr fs layers t) = entity_type t
  /\ domain (updated_token w fr fs layers t) = domain t
  /\ timestamp (updated_token w fr fs layers t) = timestamp t
  /\ age_seconds (updated_token w fr fs layers t) = age_seconds t
  /\ flags (updated_token w fr fs layers t) = flags t.
Proof.
  unfold updated_token.
  repeat match goal with
         | |- context [assign_layer ?L ?a ?t] =>
             let H := fresh in
             pose proof (identity_assign_layer L a t) as H;
             destruct H as (-> & -> & -> & -> & -> & -> & ->)
         end.
  destruct w, fr, fs; simpl; repeat split.
Qed.

(** X2: [update] never changes what identifies a token: the token it
    returns has the id, id_hex, local_id, entity_type, domain, timestamp,
    age_seconds and flags of the stored one, whatever the arguments. *)
Theorem update_keeps_identity
  (i : Z) (w fr fs : option Q) (layers : LayerArgs) (t : Token) (s : Client) :
  MockTokensClient.get i s = (Return t, s) ->
  exists t' s',
    MockTokensClient.update i w fr fs layers s = (Return t', s')
    /\ id t' = id t /\ id_hex t' = id_hex t /\ local_id t' = local_id t
    /\ entity_type t' = entity_type t /\ domain t' = domain t
    /\ timestamp t' = timestamp t /\ age_seconds t' = age_seconds t
    /\ flags t' = flags t.
Proof.
  intros Hget. apply get_return_inv in Hget. destruct Hget as [Hl _].
  rewrite (update_present _ _ _ _ _ _ _ Hl).
  eexists _, _. split; [reflexivity|].
  destruct (scalars_updated w fr fs layers t) as (Hid & _).
  destruct (identity_updated w fr fs layers t) as (H1 & H2 & H3 & H4 & H5 & H6 & H7).
  repeat split; assumption.
Qed.

Lemma update_keeps_identity_witness :
  exists t' s',
    MockTokensClient.update 1 (Some (3 # 4)%Q) None (Some 0%Q)
      (mkLayerArgs None (Some [("z"%string, 4%Q)]) None None None None None
         None) two_layer_token = (Return t', s')
    /\ id t' = 1 /\ id_hex t' = "0x00000001"%string /\ local_id t' = 1
    /\ entity_type t' = 1 /\ domain t' = 0
    /\ timestamp t' = 0 /\ age_seconds t' = 0
    /\ flags t' = [("active"%string, true); ("persistent"%string, false)].
Proof.
  exact (update_keeps_identity 1 (Some (3 # 4)%Q) None (Some 0%Q)
           (mkLayerArgs None (Some [("z"%string, 4%Q)]) None None None None
              None None)
           _ two_layer_token eq_refl).
Defined.

(** X3: [update] touches one record only: the keys of the store and their
    order, the allocation counter and the token under every other id are
    the same after the call. *)
Theorem update_touches_one_record
  (i : Z) (w fr fs : option Q) (layers : LayerArgs) (t : Token) (s : Client) :
  MockTokensClient.get i s = (Return t, s) ->
  exists t' s',
    MockTokensClient.update i w fr fs layers s = (Return t', s')
    /\ Dict.keys (_tokens_store s') = Dict.keys (_tokens_store s)
    /\ _next_token_id s' = _next_token_id s
    /\ forall j, j <> i ->
         Dict.lookup Z.eqb j (_tokens_store s')
         = Dict.lookup Z.eqb j (_tokens_store s).
Proof.
  intros Hget. apply get_return_inv in Hget. destruct Hget as [Hl _].
  rewrite (update_present _ _ _ _ _ _ _ Hl).
  eexists _, _. split; [reflexivity|]. simpl. repeat split.
  - apply keys_set_present. apply mem_true_lookup. eauto.
  - intros j Hj. now apply lookup_set_other.
Qed.

Lemma update_touches_one_record_witness :
  exists t' s',
    MockTokensClient.update 2 (Some 1%Q) None None no_layers two_tokens
    = (Return t', s')
    /\ Dict.keys (_tokens_store s') = Dict.keys (_tokens_store two_tokens)
    /\ _next_token_id s' = _next_token_id two_tokens
    /\ forall j, j <> 2 ->
         Dict.lookup Z.eqb j (_tokens_store s')
         = Dict.lookup Z.eqb j (_tokens_store two_tokens).
Proof.
  exact (update_touches_one_record 2 (Some 1%Q) None None no_layers
           _ two_tokens eq_refl).
Defined.

Lemma token_ext (t u : Token) :
  id t = id u -> id_hex t = id_hex u -> local_id t = local_id u ->
  entity_type t = entity_type u -> domain t = domain u ->
  weight t = weight u -> field_radius t = field_radius u ->
  field_strength t = field_strength u -> timestamp t = timestamp u ->
  age_seconds t = age_seconds u -> flags t = flags u ->
  coordinates t = coordinates u -> t = u.
Proof. destruct t, u; simpl; intros; subst; reflexivity. Qed.

Lemma updated_token_idempotent (w fr fs : option Q) (layers : LayerArgs)
  (t : Token) :
  updated_token w fr fs layers (updated_token w fr fs layers t)
  = updated_token w fr fs layers t.
Proof.
  set (u := updated_token w fr fs layers t).
  destruct (scalars_updated w fr fs layers u) as (A1 & A2 & A3 & A4).
  destruct (identity_updated w fr fs layers u) as (B1 & B2 & B3 & B4 & B5 & B6 & B7).
  destruct (scalars_updated w fr fs layers t) as (_ & C2 & C3 & C4).
  fold u in C2, C3, C4.
  apply token_ext; try assumption.
  - rewrite A2, C2. now destruct w.
  - rewrite A3, C3. now destruct fr.
  - rewrite A4, C4. now destruct fs.
  - apply coordinates_ext. intros L. unfold u.
    rewrite !coord_updated. unfold layer_after.
    now destruct (layer_arg L layers) as [[|kv m]|].
Qed.

Lemma set_set_same {V : Type} (k : Z) (v : V) (d : list (Z * V)) :
  Dict.set Z.eqb k v (Dict.set Z.eqb k v d) = Dict.set Z.eqb k v d.
Proof.
  induction d as [|[k' v'] d IH]; simpl.
  - now rewrite Z.eqb_refl.
  - destruct (Z.eqb k k') eqn:E; simpl; rewrite E; [reflexivity|].
    now rewrite IH.
Qed.

(** X4: [update] is idempotent: repeating a call with the same arguments
    returns the same token and leaves the state that the first call left. *)
Theorem update_idempotent
  (i : Z) (w fr fs : option Q) (layers : LayerArgs) (t : Token) (s : Client) :
  MockTokensClient.get i s = (Return t, s) ->
  exists t' s',
    MockTokensClient.update i w fr fs layers s = (Return t', s')
    /\ MockTokensClient.update i w fr fs layers s' = (Return t', s').
Proof.
  intros Hget. apply get_return_inv in Hget. destruct Hget as [Hl _].
  rewrite (update_present _ _ _ _ _ _ _ Hl).
  eexists _, _. split; [reflexivity|].
  rewrite (update_present i w fr fs layers (updated_token w fr fs layers t)).
  - simpl. now rewrite updated_token_idempotent, set_set_same.
  - simpl. apply lookup_set_same.
Qed.

Lemma update_idempotent_witness :
  exists t' s',
    MockTokensClient.update 1 (Some (3 # 4)%Q) None None
      (mkLayerArgs None (Some [("z"%string, 4%Q)]) None None None None None
         None) two_layer_token = (Return t', s')
    /\ MockTokensClient.update 1 (Some (3 # 4)%Q) None None
         (mkLayerArgs None (Some [("z"%string, 4%Q)]) None None None None
            None None) s' = (Return t', s').
Proof.
  exact (update_idempotent 1 (Some (3 # 4)%Q) None None
           (mkLayerArgs None (Some [("z"%string, 4%Q)]) None None None None
              None None)
           _ two_layer_token eq_refl).
Defined.

(** ** [delete] keeps the order of the others *)

Lemma del_all_above {V : Type} (i : Z) (d : list (Z * V)) :
  Forall (fun k => i < k) (Dict.keys d) -> Dict.del Z.eqb i d = d.
Proof.
  induction d as [|[k v] d IH]; simpl; [reflexivity|].
  intros H. inversion H; subst. simpl in *.
  rewrite (proj2 (Z.eqb_neq i k)) by lia. simpl. now rewrite IH.
Qed.

Lemma length_del_present {V : Type} (i : Z) (d : list (Z * V)) :
  StronglySorted Z.lt (Dict.keys d) -> Dict.mem Z.eqb i d = true ->
  S (List.length (Dict.del Z.eqb i d)) = List.length d.
Proof.
  induction d as [|[k v] d IH]; simpl; [discriminate|].
  intros Hs Hm. inversion Hs as [|? ? Hs' Hk]; subst.
  destruct (Z.eqb i k) eqn:E; simpl.
  - apply Z.eqb_eq in E. subst k. now rewrite del_all_above.
  - simpl in Hm. now rewrite IH.
Qed.

Lemma values_del (i : Z) (d : list (Z * Token)) :
  Forall (fun kv => id (snd kv) = fst kv) d ->
  Dict.values (Dict.del Z.eqb i d) = without_id i (Dict.values d).
Proof.
  induction 1 as [|[k t] d Hk Hd IH]; simpl; [reflexivity|].
  simpl in Hk. rewrite Hk.
  destruct (Z.eqb i k); simpl; now rewrite IH.
Qed.

(** X5: in a store whose ids are in increasing order, below the allocation
    counter and stored under their own keys, deleting a stored token takes
    exactly that token out of the listing: what is left is the old listing
    without the token of that id, in the same order, and it is one
    shorter. *)
Theorem delete_keeps_order (i : Z) (t : Token) (s : Client) :
  store_wf s ->
  MockTokensClient.get i s = (Return t, s) ->
  exists s',
    MockTokensClient.delete i s = (Return true, s')
    /\ listing s' = without_id i (listing s)
    /\ S (List.length (listing s')) = List.length (listing s)
    /\ ~ In t (listing s').
Proof.
  intros [Hs Hb Hi] Hget.
  apply get_return_inv in Hget. destruct Hget as [Hl _].
  rewrite (delete_present _ _ _ Hl). eexists. split; [reflexivity|].
  unfold listing. simpl.
  assert (Ht : id t = i).
  { rewrite Forall_forall in Hi. apply (Hi (i, t)). now apply lookup_In. }
  split; [now apply values_del|]. split.
  - unfold Dict.values. rewrite !length_map.
    apply length_del_present; [assumption|].
    apply mem_true_lookup. eauto.
  - rewrite values_del by assumption. unfold without_id.
    rewrite filter_In, Ht, Z.eqb_refl. simpl. intros [_ H]. discriminate.
Qed.

Lemma delete_keeps_order_witness :
  exists s',
    MockTokensClient.delete 1 two_tokens = (Return true, s')
    /\ listing s' = without_id 1 (listing two_tokens)
    /\ S (List.length (listing s')) = List.length (listing two_tokens)
    /\ ~ In (created_token 1 0 0 (1 # 2)%Q 1%Q 1%Q false no_layers 0)
         (listing s').
Proof.
  apply (delete_keeps_order 1 _ two_tokens
           two_tokens_wf eq_refl).
Defined.

(** ** The size of a page *)

(** X6: for non-negative [limit] and [offset], the page that [list] returns
    holds exactly min(limit, n - offset) tokens, or none when [offset] is
    beyond the [n] tokens of the store; so it is empty exactly when [limit]
    is 0 or [offset] is at least [n], and [list(n, 0)] is the whole
    listing. *)
Theorem list_page_size (limit offset : Z) (s : Client) :
  0 <= limit -> 0 <= offset ->
  exists page,
    MockTokensClient.list_ limit offset s = (Return page, s)
    /\ Z.of_nat (List.length page)
       = Z.min limit (Z.max 0 (Z.of_nat (List.length (listing s)) - offset))
    /\ (page = [] <->
        limit = 0 \/ Z.of_nat (List.length (listing s)) <= offset)
    /\ (offset = 0 -> Z.of_nat (List.length (listing s)) <= limit ->
        page = listing s).
Proof.
  intros Hl Ho. eexists. split; [reflexivity|].
  fold (listing s). rewrite py_slice_nonneg by assumption.
  set (l := listing s).
  assert (Hlen : Z.of_nat (List.length
                   (firstn (Z.to_nat limit) (skipn (Z.to_nat offset) l)))
                 = Z.min limit (Z.max 0 (Z.of_nat (List.length l) - offset))).
  { rewrite length_firstn, length_skipn. lia. }
  split; [exact Hlen|]. split.
  - split.
    + intros E. rewrite E in Hlen. simpl in Hlen. lia.
    + intros H. apply length_zero_iff_nil. lia.
  - intros -> Hall. simpl. apply firstn_all2. lia.
Qed.

Lemma list_page_size_witness :
  exists page,
    MockTokensClient.list_ 5 1 two_tokens = (Return page, two_tokens)
    /\ Z.of_nat (List.length page)
       = Z.min 5 (Z.max 0 (Z.of_nat (List.length (listing two_tokens)) - 1))
    /\ (page = [] <->
        5 = 0 \/ Z.of_nat (List.length (listing two_tokens)) <= 1)
    /\ (1 = 0 -> Z.of_nat (List.length (listing two_tokens)) <= 5 ->
        page = listing two_tokens).
Proof.
  apply (list_page_size 5 1 two_tokens); lia.
Defined.

(** ** What [query] returns *)

Lemma insert_by_score_perm (r : TokenQueryResult) (l : list TokenQueryResult) :
  Permutation (insert_by_score r l) (r :: l).
Proof.
  induction l as [|r' l IH]; simpl; [apply Permutation_refl|].
  destruct (Qle_bool (score r') (score r)); [apply Permutation_refl|].
  apply Permutation_trans with (r' :: r :: l).
  - now apply perm_skip.
  - apply perm_swap.
Qed.

Lemma sort_by_score_perm (l : list TokenQueryResult) :
  Permutation (sort_by_score l) l.
Proof.
  induction l as [|r l IH]; simpl; [apply Permutation_refl|].
  apply Permutation_trans with (r :: sort_by_score l).
  - apply insert_by_score_perm.
  - now apply perm_skip.
Qed.

Lemma query_loop_unfiltered (th : option Q) (uniform : nat -> Q) (i : nat)
  (tokens : list Token) :
  (forall x, th = Some x -> forall n, (x <= uniform n)%Q) ->
  map token_id (MockTokensClient.query_loop th uniform i tokens)
  = map (fun t => Some (id t)) tokens.
Proof.
  intros Hth. revert i.
  induction tokens as [|t tokens IH]; intros i; simpl; [reflexivity|].
  destruct th as [x|].
  - rewrite (proj2 (Qle_bool_iff x (uniform i)) (Hth x eq_refl i)).
    simpl. now rewrite IH.
  - simpl. now rewrite IH.
Qed.

(** X7: when the threshold filters nothing (it is [None], or no draw is
    below it, as with the default 0.0 and draws from [0.7, 1.0]) and [limit]
    is non-negative, [query] returns one result for each of the first
    [limit] tokens of the listing and no other: min(limit, n) results whose
    token ids are those tokens' ids, rearranged. *)
Theorem query_unfiltered_covers_prefix
  (text : string) (limit : Z) (th : option Q) (spaces : option (list string))
  (ic : bool) (uniform : nat -> Q) (s : Client) :
  0 <= limit ->
  (forall x, th = Some x -> forall n, (x <= uniform n)%Q) ->
  exists rs,
    MockTokensClient.query text limit th spaces ic uniform s = (Return rs, s)
    /\ Z.of_nat (List.length rs)
       = Z.min limit (Z.of_nat (List.length (listing s)))
    /\ Permutation (map token_id rs)
         (map (fun t => Some (id t)) (firstn (Z.to_nat limit) (listing s))).
Proof.
  intros Hl Hth. eexists. split; [reflexivity|].
  fold (listing s). change limit with (0 + limit) at 1 3.
  rewrite py_slice_nonneg by lia. simpl skipn.
  assert (P : Permutation
                (map token_id
                   (sort_by_score
                      (MockTokensClient.query_loop th uniform 0
                         (firstn (Z.to_nat limit) (listing s)))))
                (map (fun t => Some (id t))
                   (firstn (Z.to_nat limit) (listing s)))).
  { rewrite <- (query_loop_unfiltered th uniform 0 _ Hth).
    apply Permutation_map, sort_by_score_perm. }
  split; [|exact P].
  apply Permutation_length in P. rewrite !length_map in P.
  rewrite P, length_firstn. lia.
Qed.

Lemma query_unfiltered_covers_prefix_witness :
  exists rs,
    MockTokensClient.query "q"%string 1 (Some 0%Q) None false
      (fun _ => (7 # 10)%Q) two_tokens = (Return rs, two_tokens)
    /\ Z.of_nat (List.length rs)
       = Z.min 1 (Z.of_nat (List.length (listing two_tokens)))
    /\ Permutation (map token_id rs)
         (map (fun t => Some (id t))
            (firstn (Z.to_nat 1) (listing two_tokens))).
Proof.
  apply (query_unfiltered_covers_prefix "q"%string 1 (Some 0%Q) None false
           (fun _ => (7 # 10)%Q) two_tokens).
  - lia.
  - intros x [= <-] n. unfold Qle. simpl. lia.
Defined.

Lemma in_query_loop_full (th : option Q) (uniform : nat -> Q) (i : nat)
  (tokens : list Token) (r : TokenQueryResult) :
  In r (MockTokensClient.query_loop th uniform i tokens) ->
  exists t n,
    In t tokens
    /\ r = mkTokenQueryResult (Some (id t)) ("token_" ++ format_d (id t))
             (uniform n) "Concept" (Some (coordinates t))
    /\ (forall x, th = Some x -> (x <= uniform n)%Q).
Proof.
  revert i. induction tokens as [|t tokens IH]; intros i; simpl; [tauto|].
  assert (T : In r (MockTokensClient.query_loop th uniform (S i) tokens) ->
              exists t0 n,
                (t = t0 \/ In t0 tokens)
                /\ r = mkTokenQueryResult (Some (id t0))
                         ("token_" ++ format_d (id t0)) (uniform n) "Concept"
                         (Some (coordinates t0))
                /\ (forall x, th = Some x -> (x <= uniform n)%Q)).
  { intros H. destruct (IH _ H) as (t0 & n & Ht0 & E & Hx). eauto 8. }
  destruct th as [x|].
  - destruct (Qle_bool x (uniform i)) eqn:E; [|exact T].
    intros [<-|H]; [|auto]. exists t, i. repeat split; auto.
    intros x0 [= <-]. now apply Qle_bool_iff.
  - intros [<-|H]; [|auto]. exists t, i. repeat split; auto. discriminate.
Qed.

(** X8: every result of [query] describes a token of the store: it carries
    that token's id, the label "token_" followed by the id in decimal, the
    entity type "Concept" and the token's coordinates; its score is one of
    the draws and, when a threshold is given, is not below it. *)
Theorem query_results_describe_tokens
  (text : string) (limit : Z) (th : option Q) (spaces : option (list string))
  (ic : bool) (uniform : nat -> Q) (s : Client) :
  exists rs,
    MockTokensClient.query text limit th spaces ic uniform s = (Return rs, s)
    /\ Forall
         (fun r =>
            exists t n,
              In t (listing s)
              /\ token_id r = Some (id t)
              /\ label r = ("token_" ++ format_d (id t))%string
              /\ result_entity_type r = "Concept"%string
              /\ result_coordinates r = Some (coordinates t)
              /\ score r = uniform n
              /\ (forall x, th = Some x -> (x <= score r)%Q)) rs.
Proof.
  eexists. split; [reflexivity|].
  rewrite Forall_forall. intros r Hin.
  apply in_sort_by_score, in_query_loop_full in Hin.
  destruct Hin as (t & n & Ht & -> & Hx).
  apply in_py_slice in Ht.
  exists t, n. simpl. repeat split; auto.
Qed.

(** ** The token count of [status] *)

Lemma deleted_ids_cons (c : Call) (cs : list Call) (s : Client) :
  deleted_ids (c :: cs) s =
  match c with
  | CallDelete i =>
      match Dict.lookup Z.eqb i (_tokens_store s) with
      | Some _ => i :: deleted_ids cs (step c s)
      | None => deleted_ids cs (step c s)
      end
  | _ => deleted_ids cs (step c s)
  end.
Proof.
  rewrite <- call_state.
  destruct c as [et d w fr fs p layers | i | limit offset
                | i w fr fs layers | i | text limit th spaces ic uniform];
    cbn [deleted_ids].
  5: { unfold call, fmap.
       destruct (Dict.lookup Z.eqb i (_tokens_store s)) as [t|] eqn:E.
       - now rewrite (delete_present _ _ _ E).
       - now rewrite (delete_absent _ _ E). }
  all: destruct (call _ s) as [[v|e] s']; reflexivity.
Qed.

Lemma store_size_accounting (cs : list Call) (s : Client) :
  store_wf s ->
  (List.length (_tokens_store (run cs s)) + List.length (deleted_ids cs s)
   = List.length (_tokens_store s))%nat.
Proof.
  revert s. induction cs as [|c cs IH]; intros s Hwf; [simpl; lia|].
  pose proof (IH (step c s) (step_wf c s Hwf)) as H.
  rewrite deleted_ids_cons.
  cbn [run]. rewrite call_state.
  destruct Hwf as [Hs Hb Hi].
  destruct c as [et d w fr fs p layers | i | limit offset
                | i w fr fs layers | i | text limit th spaces ic uniform];
    try exact H.
  - simpl in H |- *.
    destruct (Dict.lookup Z.eqb i (_tokens_store s)) as [t|] eqn:E;
      [|exact H].
    simpl in H |- *.
    assert (K : List.length
                  (Dict.set Z.eqb i (updated_token w fr fs layers t)
                     (_tokens_store s))
                = List.length (_tokens_store s)).
    { rewrite <- (length_map fst), <- (length_map fst (_tokens_store s)).
      fold (Dict.keys (_tokens_store s)).
      fold (Dict.keys (Dict.set Z.eqb i (updated_token w fr fs layers t)
                         (_tokens_store s))).
      rewrite keys_set_present; [reflexivity|].
      apply mem_true_lookup. eauto. }
    lia.
  - simpl in H |- *.
    destruct (Dict.lookup Z.eqb i (_tokens_store s)) as [t|] eqn:E;
      [|exact H].
    simpl in H |- *.
    assert (K : S (List.length (Dict.del Z.eqb i (_tokens_store s)))
                = List.length (_tokens_store s)).
    { apply length_del_present; [assumption|].
      apply mem_true_lookup. eauto. }
    lia.
Qed.

(** X9: [status] reports as both the total and the active token count the
    number of tokens in the store and leaves the state as it is; after any
    sequence of calls on a store whose ids are in increasing order, below
    the allocation counter and stored under their own keys, that number is
    the number of tokens the store held at the start minus the number of
    [delete] calls that succeeded: a [create] call adds nothing to the
    count. *)
Theorem status_counts_stored_tokens (cs : list Call) (s : Client) :
  store_wf s ->
  exists st,
    MockHealthClient.status (run cs s) = (Return st, run cs s)
    /\ SystemStatus.tokens st
       = [("total"%string, Z.of_nat (List.length (listing (run cs s))));
          ("active"%string, Z.of_nat (List.length (listing (run cs s))))]
    /\ Z.of_nat (List.length (listing (run cs s)))
       = Z.of_nat (List.length (listing s))
         - Z.of_nat (List.length (deleted_ids cs s)).
Proof.
  intros Hwf.
  pose proof (store_size_accounting cs s Hwf) as H.
  revert H. generalize (run cs s). intros s1 H.
  eexists. split.
  - unfold MockHealthClient.status, bind, tokens_store, ret. reflexivity.
  - simpl. unfold listing, Dict.values. rewrite !length_map.
    split; [reflexivity|]. lia.
Qed.

Lemma status_counts_stored_tokens_witness :
  exists st,
    MockHealthClient.status
      (run [create_default; CallDelete 2; CallDelete 2; create_default]
         three_tokens)
    = (Return st,
       run [create_default; CallDelete 2; CallDelete 2; create_default]
         three_tokens)
    /\ SystemStatus.tokens st = [("total"%string, 2); ("active"%string, 2)]
    /\ deleted_ids [create_default; CallDelete 2; CallDelete 2; create_default]
         three_tokens = [2].
Proof.
  destruct (status_counts_stored_tokens
              [create_default; CallDelete 2; CallDelete 2; create_default]
              three_tokens three_tokens_wf) as (st & E & T & _).
  exists st. split; [exact E|]. split; [exact T|]. reflexivity.
Defined.

Example status_on_fresh_client_after_creates :
  SystemStatus.tokens
    (match MockHealthClient.status
             (run [create_default; create_default; CallDelete 1;
                   create_default] init) with
     | (Return st, _) => st
     | (Raise _, s) =>
         SystemStatus.mk "" 0 [] [] 0 0 [] None None None
     end)
  = [("total"%string, 0); ("active"%string, 0)].
Proof. reflexivity. Qed.

(** * The API key store *)

(** ** Dictionaries keyed by strings *)

Lemma smem_false_lookup {V : Type} (k : string) (d : list (string * V)) :
  Dict.mem String.eqb k d = false <-> Dict.lookup String.eqb k d = None.
Proof.
  induction d as [|[k' v] d IH]; simpl; [tauto|].
  destruct (String.eqb k k'); simpl; [split; discriminate | exact IH].
Qed.

Lemma smem_true_lookup {V : Type} (k : string) (d : list (string * V)) :
  Dict.mem String.eqb k d = true
  <-> exists v, Dict.lookup String.eqb k d = Some v.
Proof.
  destruct (Dict.lookup String.eqb k d) as [v|] eqn:E.
  - split; [eauto|intros _].
    destruct (Dict.mem String.eqb k d) eqn:M; [reflexivity|].
    apply smem_false_lookup in M. congruence.
  - apply smem_false_lookup in E. rewrite E.
    split; [discriminate | intros [v Hv]; discriminate].
Qed.

Lemma smem_true_keys {V : Type} (k : string) (d : list (string * V)) :
  Dict.mem String.eqb k d = true <-> In k (Dict.keys d).
Proof.
  unfold Dict.mem, Dict.keys. rewrite existsb_exists, in_map_iff. split.
  - intros [kv [Hin Hk]]. apply String.eqb_eq in Hk. eauto.
  - intros [kv [Hk Hin]]. exists kv. split; [exact Hin|].
    now apply String.eqb_eq.
Qed.

Lemma slookup_set_same {V : Type} (k : string) (v : V) (d : list (string * V)) :
  Dict.lookup String.eqb k (Dict.set String.eqb k v d) = Some v.
Proof.
  induction d as [|[k' v'] d IH]; simpl.
  - now rewrite String.eqb_refl.
  - destruct (String.eqb k k') eqn:E; simpl; rewrite E;
      [reflexivity | exact IH].
Qed.

Lemma slookup_set_other {V : Type} (k k0 : string) (v : V)
  (d : list (string * V)) :
  k0 <> k ->
  Dict.lookup String.eqb k0 (Dict.set String.eqb k v d)
  = Dict.lookup String.eqb k0 d.
Proof.
  intros Hne. induction d as [|[k' v'] d IH]; simpl.
  - now rewrite (proj2 (String.eqb_neq k0 k)).
  - destruct (String.eqb k k') eqn:E; simpl.
    + apply String.eqb_eq in E. subst k'.
      now rewrite (proj2 (String.eqb_neq k0 k)).
    + now rewrite IH.
Qed.

Lemma skeys_set_present {V : Type} (k : string) (v : V)
  (d : list (string * V)) :
  Dict.mem String.eqb k d = true ->
  Dict.keys (Dict.set String.eqb k v d) = Dict.keys d.
Proof.
  induction d as [|[k' v'] d IH]; simpl; [discriminate|].
  destruct (String.eqb k k') eqn:E; simpl; [reflexivity|].
  intros H. now rewrite IH.
Qed.

Lemma sset_absent {V : Type} (k : string) (v : V) (d : list (string * V)) :
  Dict.mem String.eqb k d = false ->
  Dict.set String.eqb k v d = d ++ [(k, v)].
Proof.
  induction d as [|[k' v'] d IH]; simpl; [reflexivity|].
  destruct (String.eqb k k') eqn:E; simpl; [discriminate|].
  intros H. now rewrite IH.
Qed.

Lemma slookup_del_same {V : Type} (k : string) (d : list (string * V)) :
  Dict.lookup String.eqb k (Dict.del String.eqb k d) = None.
Proof.
  induction d as [|[k' v'] d IH]; simpl; [reflexivity|].
  destruct (String.eqb k k') eqn:E; simpl; [exact IH|].
  now rewrite E.
Qed.

Lemma slookup_del_other {V : Type} (k k0 : string) (d : list (string * V)) :
  k0 <> k ->
  Dict.lookup String.eqb k0 (Dict.del String.eqb k d)
  = Dict.lookup String.eqb k0 d.
Proof.
  intros Hne. induction d as [|[k' v'] d IH]; simpl; [reflexivity|].
  destruct (String.eqb k k') eqn:E; simpl.
  - apply String.eqb_eq in E. subst k'.
    now rewrite (proj2 (String.eqb_neq k0 k)).
  - now rewrite IH.
Qed.

Lemma slookup_In {V : Type} (k : string) (v : V) (d : list (string * V)) :
  Dict.lookup String.eqb k d = Some v -> In (k, v) d.
Proof.
  induction d as [|[k' v'] d IH]; simpl; [discriminate|].
  destruct (String.eqb k k') eqn:E.
  - apply String.eqb_eq in E. intros [= ->]. left. now subst.
  - intros H. right. now apply IH.
Qed.

Lemma sin_set {V : Type} (k : string) (v : V) (d : list (string * V))
  (x : string * V) :
  In x (Dict.set String.eqb k v d) -> x = (k, v) \/ In x d.
Proof.
  induction d as [|[k' v'] d IH]; simpl.
  - intros [<-|[]]. now left.
  - destruct (String.eqb k k') eqn:E; simpl.
    + apply String.eqb_eq in E. subst k'. intros [<-|H]; auto.
    + intros [<-|H]; auto. destruct (IH H); auto.
Qed.

Lemma sin_del {V : Type} (k : string) (d : list (string * V))
  (x : string * V) :
  In x (Dict.del String.eqb k d) -> In x d.
Proof. unfold Dict.del. rewrite filter_In. tauto. Qed.

(** ** What each key operation computes *)


Lemma key_get_present (k : string) (a : APIKey.t) (s : KeyClient) :
  Dict.lookup String.eqb k (_api_keys_store s) = Some a ->
  MockAPIKeysClient.get k s = (Return (without_secret a), s).
Proof.
  intros H. unfold MockAPIKeysClient.get, kbind, api_keys_store.
  rewrite (proj2 (smem_true_lookup k (_api_keys_store s))) by eauto.
  simpl. unfold key_subscript. now rewrite H.
Qed.

Lemma key_get_absent (k : string) (s : KeyClient) :
  Dict.lookup String.eqb k (_api_keys_store s) = None ->
  MockAPIKeysClient.get k s = (Raise (key_not_found k), s).
Proof.
  intros H. unfold MockAPIKeysClient.get, kbind, api_keys_store.
  now rewrite (proj2 (smem_false_lookup k (_api_keys_store s))).
Qed.

Lemma key_revoke_present (k : string) (a : APIKey.t) (s : KeyClient) :
  Dict.lookup String.eqb k (_api_keys_store s) = Some a ->
  MockAPIKeysClient.revoke k s =
  (Return tt,
   mkKeyClient (Dict.set String.eqb k (with_disabled true a)
                  (_api_keys_store s))
     (_next_key_id s)).
Proof.
  intros H. unfold MockAPIKeysClient.revoke, kbind at 1.
  rewrite (key_get_present _ _ _ H).
  unfold kbind, api_keys_store, key_subscript. rewrite H. reflexivity.
Qed.

Lemma key_revoke_absent (k : string) (s : KeyClient) :
  Dict.lookup String.eqb k (_api_keys_store s) = None ->
  MockAPIKeysClient.revoke k s = (Raise (key_not_found k), s).
Proof.
  intros H. unfold MockAPIKeysClient.revoke, kbind at 1.
  now rewrite (key_get_absent _ _ H).
Qed.

Lemma key_delete_present (k : string) (a : APIKey.t) (s : KeyClient) :
  Dict.lookup String.eqb k (_api_keys_store s) = Some a ->
  MockAPIKeysClient.delete k s =
  (Return tt,
   mkKeyClient (Dict.del String.eqb k (_api_keys_store s)) (_next_key_id s)).
Proof.
  intros H. unfold MockAPIKeysClient.delete, kbind, api_keys_store.
  rewrite (proj2 (smem_true_lookup k (_api_keys_store s))) by eauto.
  reflexivity.
Qed.

Lemma key_delete_absent (k : string) (s : KeyClient) :
  Dict.lookup String.eqb k (_api_keys_store s) = None ->
  MockAPIKeysClient.delete k s = (Raise (key_not_found k), s).
Proof.
  intros H. unfold MockAPIKeysClient.delete, kbind, api_keys_store.
  now rewrite (proj2 (smem_false_lookup k (_api_keys_store s))).
Qed.

(** ** [create] *)

Lemma two_keys_wf : key_store_wf two_keys.
Proof.
  constructor; simpl.
  - repeat constructor.
  - repeat constructor; simpl; intuition discriminate.
Qed.



Example key_create_on_fresh_client :
  map (fun d => MockAPIKeysClient.create "ci" [] d 12345 init_keys)
    [None; Some 0; Some 30]
  = [(Raise no_UTC, mkKeyClient [] 2); (Raise no_UTC, mkKeyClient [] 2);
     (Raise no_UTC, mkKeyClient [] 2)].
Proof. reflexivity. Qed.

(** ** [revoke] *)

(** X13: [revoke] on a stored key returns and only sets [disabled]: [get]
    then returns the same record with [disabled] true, the key stays in the
    store at its place, every other key and the counter are unchanged, and
    revoking again changes nothing. *)
Theorem key_revoke_only_disables (k : string) (a : APIKey.t) (s : KeyClient) :
  MockAPIKeysClient.get k s = (Return a, s) ->
  exists s',
    MockAPIKeysClient.revoke k s = (Return tt, s')
    /\ MockAPIKeysClient.get k s' = (Return (with_disabled true a), s')
    /\ Dict.keys (_api_keys_store s') = Dict.keys (_api_keys_store s)
    /\ _next_key_id s' = _next_key_id s
    /\ (forall j, j <> k ->
          Dict.lookup String.eqb j (_api_keys_store s')
          = Dict.lookup String.eqb j (_api_keys_store s))
    /\ MockAPIKeysClient.revoke k s' = (Return tt, s').
Proof.
  intros Hget.
  destruct (Dict.lookup String.eqb k (_api_keys_store s)) as [a0|] eqn:E;
    [|rewrite (key_get_absent _ _ E) in Hget; discriminate].
  rewrite (key_get_present _ _ _ E) in Hget. injection Hget as <-.
  rewrite (key_revoke_present _ _ _ E).
  set (s' := mkKeyClient
               (Dict.set String.eqb k (with_disabled true a0)
                  (_api_keys_store s))
               (_next_key_id s)).
  assert (L : Dict.lookup String.eqb k (_api_keys_store s')
              = Some (with_disabled true a0)) by apply slookup_set_same.
  exists s'. split; [reflexivity|]. repeat split.
  - now rewrite (key_get_present _ _ _ L).
  - apply skeys_set_present. apply smem_true_lookup. eauto.
  - intros j Hj. now apply slookup_set_other.
  - rewrite (key_revoke_present _ _ _ L). unfold s'.
    cbn [_api_keys_store _next_key_id]. f_equal. f_equal.
    clear. induction (_api_keys_store s) as [|[k' v'] l IH]; simpl.
    + now rewrite String.eqb_refl.
    + destruct (String.eqb k k') eqn:E; simpl; rewrite E;
        [reflexivity | now rewrite IH].
Qed.

Lemma key_revoke_only_disables_witness :
  exists s',
    MockAPIKeysClient.revoke "key_00000002" two_keys = (Return tt, s')
    /\ MockAPIKeysClient.get "key_00000002" s'
       = (Return (with_disabled true
                    (APIKey.mk "key_00000002" "ops" "ng_mock" [] 200
                       (Some 400) None false None)), s')
    /\ Dict.keys (_api_keys_store s') = Dict.keys (_api_keys_store two_keys)
    /\ _next_key_id s' = _next_key_id two_keys
    /\ (forall j, j <> "key_00000002"%string ->
          Dict.lookup String.eqb j (_api_keys_store s')
          = Dict.lookup String.eqb j (_api_keys_store two_keys))
    /\ MockAPIKeysClient.revoke "key_00000002" s' = (Return tt, s').
Proof.
  apply (key_revoke_only_disables "key_00000002" _ two_keys eq_refl).
Defined.

(** ** Missing keys *)

(** X14: [get], [revoke] and [delete] on a key id that is not in the store
    raise NotFound with the code "API_KEY_NOT_FOUND" and leave the state as
    it was; [delete] on a stored key removes that key and no other, keeps
    the counter, and the three operations then raise NotFound for it. *)
Theorem key_not_found_iff_absent (k : string) (s : KeyClient) :
  (~ In k (Dict.keys (_api_keys_store s)) ->
   MockAPIKeysClient.get k s = (Raise (key_not_found k), s)
   /\ MockAPIKeysClient.revoke k s = (Raise (key_not_found k), s)
   /\ MockAPIKeysClient.delete k s = (Raise (key_not_found k), s))
  /\ (In k (Dict.keys (_api_keys_store s)) ->
      exists s',
        MockAPIKeysClient.delete k s = (Return tt, s')
        /\ ~ In k (Dict.keys (_api_keys_store s'))
        /\ (forall j, j <> k ->
              Dict.lookup String.eqb j (_api_keys_store s')
              = Dict.lookup String.eqb j (_api_keys_store s))
        /\ _next_key_id s' = _next_key_id s
        /\ MockAPIKeysClient.get k s' = (Raise (key_not_found k), s')
        /\ MockAPIKeysClient.revoke k s' = (Raise (key_not_found k), s')
        /\ MockAPIKeysClient.delete k s' = (Raise (key_not_found k), s')).
Proof.
  split.
  - intros Hn.
    assert (E : Dict.lookup String.eqb k (_api_keys_store s) = None).
    { apply smem_false_lookup.
      destruct (Dict.mem String.eqb k (_api_keys_store s)) eqn:M;
        [|reflexivity].
      apply smem_true_keys in M. contradiction. }
    repeat split;
      [now apply key_get_absent | now apply key_revoke_absent
      | now apply key_delete_absent].
  - intros Hin. apply smem_true_keys, smem_true_lookup in Hin.
    destruct Hin as [a E].
    rewrite (key_delete_present _ _ _ E).
    set (s' := mkKeyClient (Dict.del String.eqb k (_api_keys_store s))
                 (_next_key_id s)).
    assert (L : Dict.lookup String.eqb k (_api_keys_store s') = None)
      by apply slookup_del_same.
    exists s'. split; [reflexivity|]. repeat split.
    + intros Hin. apply smem_true_keys, smem_true_lookup in Hin.
      destruct Hin as [a' E']. congruence.
    + intros j Hj. now apply slookup_del_other.
    + now apply key_get_absent.
    + now apply key_revoke_absent.
    + now apply key_delete_absent.
Qed.

Lemma key_not_found_iff_absent_witness :
  exists s',
    MockAPIKeysClient.delete "key_00000001" two_keys = (Return tt, s')
    /\ ~ In "key_00000001"%string (Dict.keys (_api_keys_store s'))
    /\ (forall j, j <> "key_00000001"%string ->
          Dict.lookup String.eqb j (_api_keys_store s')
          = Dict.lookup String.eqb j (_api_keys_store two_keys))
    /\ _next_key_id s' = _next_key_id two_keys
    /\ MockAPIKeysClient.get "key_00000001" s'
       = (Raise (key_not_found "key_00000001"), s')
    /\ MockAPIKeysClient.revoke "key_00000001" s'
       = (Raise (key_not_found "key_00000001"), s')
    /\ MockAPIKeysClient.delete "key_00000001" s'
       = (Raise (key_not_found "key_00000001"), s').
Proof.
  apply (proj2 (key_not_found_iff_absent "key_00000001" two_keys)).
  simpl. auto.
Defined.

(** ** [list] *)

Lemma nodup_lookup {V : Type} (k : string) (v : V) (d : list (string * V)) :
  NoDup (Dict.keys d) -> In (k, v) d ->
  Dict.lookup String.eqb k d = Some v.
Proof.
  induction d as [|[k' v'] d IH]; simpl; [tauto|].
  intros Hd [E|Hin].
  - injection E as -> ->. now rewrite String.eqb_refl.
  - inversion Hd; subst.
    destruct (String.eqb k k') eqn:E.
    + apply String.eqb_eq in E. subst k'. exfalso. apply H1.
      unfold Dict.keys. apply in_map_iff. now exists (k, v).
    + now apply IH.
Qed.

(** X15: in a key store that holds each key under its own key id, once,
    and with the mock prefix, [api_keys.list] returns one record per stored
    key, in the order of the store, and leaves the state as it was; no
    record carries the full key ([api_key] is [None]), each has the prefix
    "ng_mock", and each is what [get] returns for its key id. *)
Theorem key_list_matches_get (s : KeyClient) :
  key_store_wf s ->
  exists l,
    MockAPIKeysClient.list_ s = (Return l, s)
    /\ map APIKey.key_id l = Dict.keys (_api_keys_store s)
    /\ Forall (fun a => APIKey.api_key a = None
                        /\ APIKey.key_prefix a = "ng_mock"%string
                        /\ MockAPIKeysClient.get (APIKey.key_id a) s
                           = (Return a, s)) l.
Proof.
  intros [He Hd].
  eexists. split; [reflexivity|]. rewrite Forall_forall in He. split.
  - unfold Dict.values, Dict.keys. rewrite !map_map.
    apply map_ext_in. intros kv Hin.
    destruct (He _ Hin) as (Hk & _). exact Hk.
  - rewrite Forall_forall. intros a Ha.
    unfold Dict.values in Ha. rewrite map_map in Ha.
    apply in_map_iff in Ha. destruct Ha as ([k v] & <- & Hin).
    destruct (He _ Hin) as (Hk & Hp). simpl in *.
    repeat split; [exact Hp|]. rewrite Hk.
    now rewrite (key_get_present k v s (nodup_lookup k v _ Hd Hin)).
Qed.

Lemma key_list_matches_get_witness :
  exists l,
    MockAPIKeysClient.list_ two_keys = (Return l, two_keys)
    /\ map APIKey.key_id l = Dict.keys (_api_keys_store two_keys)
    /\ Forall (fun a => APIKey.api_key a = None
                        /\ APIKey.key_prefix a = "ng_mock"%string
                        /\ MockAPIKeysClient.get (APIKey.key_id a) two_keys
                           = (Return a, two_keys)) l.
Proof.
  apply (key_list_matches_get two_keys two_keys_wf).
Defined.

(** * The request bodies of [TokensClient] *)

Lemma lookup_put_if_given_other (k key : string) (x : option Q)
  (acc : list (string * TokensClient.BodyValue)) :
  String.eqb k key = false ->
  Dict.lookup String.eqb k (TokensClient.put_if_given key x acc)
  = Dict.lookup String.eqb k acc.
Proof.
  intros E. apply String.eqb_neq in E. unfold TokensClient.put_if_given.
  destruct x; [now apply slookup_set_other | reflexivity].
Qed.

Lemma lookup_put_if_given_same (key : string) (x : option Q)
  (acc : list (string * TokensClient.BodyValue)) :
  Dict.lookup String.eqb key acc = None ->
  Dict.lookup String.eqb key (TokensClient.put_if_given key x acc)
  = option_map TokensClient.BFloat x.
Proof.
  intros E. unfold TokensClient.put_if_given.
  destruct x; [apply slookup_set_same | exact E].
Qed.

Lemma lookup_put_if_truthy_other (k key : string)
  (d : option (list (string * Q)))
  (acc : list (string * TokensClient.BodyValue)) :
  String.eqb k key = false ->
  Dict.lookup String.eqb k (TokensClient.put_if_truthy key d acc)
  = Dict.lookup String.eqb k acc.
Proof.
  intros E. apply String.eqb_neq in E. unfold TokensClient.put_if_truthy.
  destruct d as [[|kv m]|]; simpl; [reflexivity | | reflexivity].
  now apply slookup_set_other.
Qed.

Lemma lookup_put_if_truthy_same (key : string)
  (d : option (list (string * Q)))
  (acc : list (string * TokensClient.BodyValue)) :
  Dict.lookup String.eqb key acc = None ->
  Dict.lookup String.eqb key (TokensClient.put_if_truthy key d acc)
  = option_map TokensClient.BCoords
      (match d with
       | Some m => if Dict.truthy m then Some m else None
       | None => None
       end).
Proof.
  intros E. unfold TokensClient.put_if_truthy.
  destruct d as [[|kv m]|]; simpl; [exact E | | exact E].
  apply slookup_set_same.
Qed.

(** looks a key up in a body built by a chain of conditional stores *)
Ltac lookup_in_body :=
  repeat first
    [ rewrite lookup_put_if_truthy_other by reflexivity
    | rewrite lookup_put_if_given_other by reflexivity ];
  first [ rewrite lookup_put_if_truthy_same | rewrite lookup_put_if_given_same
        | idtac ];
  repeat first
    [ rewrite lookup_put_if_truthy_other by reflexivity
    | rewrite lookup_put_if_given_other by reflexivity ];
  reflexivity.

(** X17: the body that [TokensClient.update] sends holds exactly what was
    given: "weight", "field_radius" and "field_strength" are present with
    the given value when given and missing when [None]; a layer keyword is
    present with its mapping when the mapping is given and not empty, and
    missing otherwise; with nothing given the body is the empty object. *)
Theorem update_body_holds_what_is_given
  (w fr fs : option Q) (layers : LayerArgs) :
  Dict.lookup String.eqb "weight"%string (TokensClient.update_data w fr fs layers)
  = option_map TokensClient.BFloat w
  /\ Dict.lookup String.eqb "field_radius"%string
       (TokensClient.update_data w fr fs layers)
     = option_map TokensClient.BFloat fr
  /\ Dict.lookup String.eqb "field_strength"%string
       (TokensClient.update_data w fr fs layers)
     = option_map TokensClient.BFloat fs
  /\ (forall L,
        Dict.lookup String.eqb (layer_key L)
          (TokensClient.update_data w fr fs layers)
        = option_map TokensClient.BCoords (given_layer L layers))
  /\ TokensClient.update_data None None None no_layers = [].
Proof.
  unfold TokensClient.update_data.
  split; [lookup_in_body|]. split; [lookup_in_body|].
  split; [lookup_in_body|]. split; [|reflexivity].
  intros L. unfold given_layer.
  destruct L; cbn [layer_key layer_arg]; lookup_in_body.
Qed.

Lemma lookup_request_put_other (k key : string)
  (d : option (list (string * Q)))
  (acc : list (string * TokensClientRequests.BodyValue)) :
  String.eqb k key = false ->
  Dict.lookup String.eqb k (TokensClientRequests.put_if_truthy key d acc)
  = Dict.lookup String.eqb k acc.
Proof.
  intros E. apply String.eqb_neq in E.
  unfold TokensClientRequests.put_if_truthy.
  destruct d as [[|kv m]|]; simpl; [reflexivity | | reflexivity].
  now apply slookup_set_other.
Qed.

Lemma lookup_request_put_same (key : string)
  (d : option (list (string * Q)))
  (acc : list (string * TokensClientRequests.BodyValue)) :
  Dict.lookup String.eqb key acc = None ->
  Dict.lookup String.eqb key (TokensClientRequests.put_if_truthy key d acc)
  = option_map TokensClientRequests.JCoords
      (match d with
       | Some m => if Dict.truthy m then Some m else None
       | None => None
       end).
Proof.
  intros E. unfold TokensClientRequests.put_if_truthy.
  destruct d as [[|kv m]|]; simpl; [exact E | | exact E].
  apply slookup_set_same.
Qed.

Ltac lookup_in_request :=
  repeat rewrite lookup_request_put_other by reflexivity;
  first [ rewrite lookup_request_put_same | idtac ];
  repeat rewrite lookup_request_put_other by reflexivity;
  reflexivity.

(** X18: the body that [TokensClient.create] sends always holds the six
    scalar fields with the values given, and holds a layer keyword, with
    its mapping, exactly for the layers whose mapping is given and not
    empty.  The body that [TokensClient.query] sends always holds "text",
    "limit", "threshold" and "include_connections", and holds "spaces"
    exactly when a non-empty list of spaces is given. *)
Theorem create_and_query_bodies
  (et d : Z) (w fr fs : Q) (p : bool) (layers : LayerArgs)
  (text : string) (limit : Z) (th : Q) (spaces : option (list string))
  (ic : bool) :
  let body := TokensClientRequests.payload et d w fr fs p layers in
  let q := TokensClientRequests.query_data text limit th spaces ic in
  Dict.lookup String.eqb "entity_type"%string body
  = Some (TokensClientRequests.JInt et)
  /\ Dict.lookup String.eqb "domain"%string body
     = Some (TokensClientRequests.JInt d)
  /\ Dict.lookup String.eqb "weight"%string body
     = Some (TokensClientRequests.JFloat w)
  /\ Dict.lookup String.eqb "field_radius"%string body
     = Some (TokensClientRequests.JFloat fr)
  /\ Dict.lookup String.eqb "field_strength"%string body
     = Some (TokensClientRequests.JFloat fs)
  /\ Dict.lookup String.eqb "persistent"%string body
     = Some (TokensClientRequests.JBool p)
  /\ (forall L,
        Dict.lookup String.eqb (layer_key L) body
        = option_map TokensClientRequests.JCoords (given_layer L layers))
  /\ Dict.lookup String.eqb "text"%string q
     = Some (TokensClientRequests.JStr text)
  /\ Dict.lookup String.eqb "limit"%string q
     = Some (TokensClientRequests.JInt limit)
  /\ Dict.lookup String.eqb "threshold"%string q
     = Some (TokensClientRequests.JFloat th)
  /\ Dict.lookup String.eqb "include_connections"%string q
     = Some (TokensClientRequests.JBool ic)
  /\ Dict.lookup String.eqb "spaces"%string q
     = match spaces with
       | Some (sp :: rest) => Some (TokensClientRequests.JStrs (sp :: rest))
       | _ => None
       end.
Proof.
  cbv zeta. unfold TokensClientRequests.payload.
  do 6 (split; [lookup_in_request|]).
  split.
  { intros L. unfold given_layer.
    destruct L; cbn [layer_key layer_arg]; lookup_in_request. }
  unfold TokensClientRequests.query_data.
  destruct spaces as [[|sp rest]|]; repeat split; reflexivity.
Qed.

(** * Error responses *)

(** X19: the error that [_handle_error_response] raises is decided by the
    status code: 401, 403, 404 and 422 give their own class, 429 gives
    RateLimitError, any status of 500 or more gives ServerError and every
    other status the base AxiomError, each carrying the response's status
    code.  The one exception is a 429 whose Retry-After header is a
    non-empty text that [int] rejects: the handler then raises that
    ValueError instead; a missing or empty header gives [retry_after]
    [None]. *)
Theorem error_class_by_status
  (int_of_str : string -> option Z) (r : AxiomClient.Response) :
  let st := AxiomClient.status_code r in
  match AxiomClient._handle_error_response int_of_str r with
  | AxiomClient.Api cls _ st' _ _ =>
      st' = st /\ st <> 429
      /\ (cls = AxiomClient.AuthenticationError <-> st = 401)
      /\ (cls = AxiomClient.AuthorizationError <-> st = 403)
      /\ (cls = AxiomClient.NotFoundError <-> st = 404)
      /\ (cls = AxiomClient.ValidationError <-> st = 422)
      /\ (cls = AxiomClient.ServerError <-> 500 <= st)
      /\ (cls = AxiomClient.AxiomError <->
          st < 500 /\ st <> 401 /\ st <> 403 /\ st <> 404 /\ st <> 422)
  | AxiomClient.RateLimitError _ st' _ _ retry =>
      st' = st /\ st = 429
      /\ match AxiomClient.retry_after_header r with
         | Some (String c s) => retry = int_of_str (String c s)
                                /\ retry <> None
         | _ => retry = None
         end
  | AxiomClient.ValueError lit =>
      st = 429 /\ lit <> EmptyString
      /\ AxiomClient.retry_after_header r = Some lit
      /\ int_of_str lit = None
  end.
Proof.
  cbv zeta. unfold AxiomClient._handle_error_response.
  destruct (match AxiomClient.read_error r with
            | Some fields => fields
            | None => _
            end) as [[message code] details].
  destruct (Z.eqb_spec (AxiomClient.status_code r) 401) as [E1|E1];
    [repeat split; intros; try discriminate; try lia; auto|].
  destruct (Z.eqb_spec (AxiomClient.status_code r) 403) as [E2|E2];
    [repeat split; intros; try discriminate; try lia; auto|].
  destruct (Z.eqb_spec (AxiomClient.status_code r) 404) as [E3|E3];
    [repeat split; intros; try discriminate; try lia; auto|].
  destruct (Z.eqb_spec (AxiomClient.status_code r) 422) as [E4|E4];
    [repeat split; intros; try discriminate; try lia; auto|].
  destruct (Z.eqb_spec (AxiomClient.status_code r) 429) as [E5|E5].
  - destruct (AxiomClient.retry_after_header r) as [[|c s]|]; auto.
    destruct (int_of_str (String c s)) as [n|] eqn:En.
    + repeat split; auto. discriminate.
    + repeat split; auto. discriminate.
  - destruct (AxiomClient.status_code r >=? 500) eqn:E6.
    + assert (500 <= AxiomClient.status_code r) by lia.
      repeat split; intros; try discriminate; try lia; auto.
    + assert (AxiomClient.status_code r < 500) by lia.
      repeat split; intros; try discriminate; try lia; auto.
Qed.

(** The message, error code and details that the handler passes to the
    error it raises. *)
Lemma read_error_cases (r : AxiomClient.Response) :
  exists message code details,
    (match AxiomClient.read_error r with
     | Some fields => fields
     | None => (AxiomClient.JStr (AxiomClient.text r),
                AxiomClient.JNull, AxiomClient.JObj [])
     end) = (message, code, details)
    /\ ((AxiomClient.json r = None
         \/ (exists v, AxiomClient.json r = Some v
                       /\ forall ms, v <> AxiomClient.JObj ms)
         \/ (exists ms, AxiomClient.json r = Some (AxiomClient.JObj ms)
                        /\ Dict.lookup String.eqb "error"%string ms = None)
         \/ (exists ms v, AxiomClient.json r = Some (AxiomClient.JObj ms)
                          /\ Dict.lookup String.eqb "error"%string ms = Some v
                          /\ forall em, v <> AxiomClient.JObj em)) ->
        message = AxiomClient.JStr (AxiomClient.text r)
        /\ code = AxiomClient.JNull /\ details = AxiomClient.JObj [])
    /\ (forall ms em,
          AxiomClient.json r = Some (AxiomClient.JObj ms) ->
          Dict.lookup String.eqb "error"%string ms
          = Some (AxiomClient.JObj em) ->
          message = Dict.get String.eqb "message"%string
                      (AxiomClient.JStr (AxiomClient.text r)) em
          /\ code = Dict.get String.eqb "code"%string AxiomClient.JNull em
          /\ details = Dict.get String.eqb "details"%string
                         (AxiomClient.JObj []) em).
Proof.
  unfold AxiomClient.read_error.
  destruct (AxiomClient.json r) as [data|] eqn:Ej.
  2: { eexists _, _, _. split; [reflexivity|].
       split; [auto | intros; discriminate]. }
  destruct data as [| b | x | s | l | ms];
    try (eexists _, _, _; split; [reflexivity|];
         split; [auto | intros; discriminate]).
  cbn [AxiomClient.get].
  remember (Dict.get String.eqb "error"%string (AxiomClient.JObj []) ms)
    as error eqn:Eerr.
  unfold Dict.get in Eerr.
  destruct (Dict.lookup String.eqb "error"%string ms) as [v|] eqn:Ev;
    subst error.
  - destruct v as [| b | x | s | l | em]; cbn [AxiomClient.get];
      try (eexists _, _, _; split; [reflexivity|];
           split; [auto | intros ms0 em0 [= <-] Hl; congruence]).
    eexists _, _, _. split; [reflexivity|]. split.
    + intros [H|[(v & [= <-] & Hv)|[(ms0 & [= <-] & Hl)
                                   |(ms0 & v & [= <-] & Hl & Hv)]]].
      * discriminate H.
      * exfalso. eapply Hv. reflexivity.
      * congruence.
      * rewrite Ev in Hl. injection Hl as <-.
        exfalso. eapply Hv. reflexivity.
    + intros ms0 em0 [= <-] Hl. rewrite Ev in Hl. injection Hl as <-. auto.
  - cbn [AxiomClient.get Dict.get Dict.lookup].
    eexists _, _, _. split; [reflexivity|].
    split; [auto | intros ms0 em0 [= <-] Hl; congruence].
Qed.

(** X20: when the body of an error response is not JSON, is not a JSON
    object, has no "error" member, or has an "error" member that is not an
    object, the error raised carries the raw response text as its message,
    no error code and empty details; when "error" is an object, the message,
    code and details are its members of those names, the message
    defaulting to the response text, the code to [None] and the details to
    the empty object.  (Status 429 apart, whose error is not built by the
    common constructor.) *)
Theorem error_message_falls_back_to_text
  (int_of_str : string -> option Z) (r : AxiomClient.Response) :
  AxiomClient.status_code r <> 429 ->
  exists cls message code details,
    AxiomClient._handle_error_response int_of_str r
    = AxiomClient.Api cls message (AxiomClient.status_code r) code details
    /\ ((AxiomClient.json r = None
         \/ (exists v, AxiomClient.json r = Some v
                       /\ forall ms, v <> AxiomClient.JObj ms)
         \/ (exists ms, AxiomClient.json r = Some (AxiomClient.JObj ms)
                        /\ Dict.lookup String.eqb "error"%string ms = None)
         \/ (exists ms v, AxiomClient.json r = Some (AxiomClient.JObj ms)
                          /\ Dict.lookup String.eqb "error"%string ms = Some v
                          /\ forall em, v <> AxiomClient.JObj em)) ->
        message = AxiomClient.JStr (AxiomClient.text r)
        /\ code = AxiomClient.JNull /\ details = AxiomClient.JObj [])
    /\ (forall ms em,
          AxiomClient.json r = Some (AxiomClient.JObj ms) ->
          Dict.lookup String.eqb "error"%string ms
          = Some (AxiomClient.JObj em) ->
          message = Dict.get String.eqb "message"%string
                      (AxiomClient.JStr (AxiomClient.text r)) em
          /\ code = Dict.get String.eqb "code"%string AxiomClient.JNull em
          /\ details = Dict.get String.eqb "details"%string
                         (AxiomClient.JObj []) em).
Proof.
  intros H429.
  destruct (read_error_cases r) as (message & code & details & E & F1 & F2).
  unfold AxiomClient._handle_error_response. rewrite E.
  rewrite (proj2 (Z.eqb_neq _ 429) H429).
  destruct (AxiomClient.status_code r =? 401);
    [eexists _, _, _, _; split; [reflexivity | auto]|].
  destruct (AxiomClient.status_code r =? 403);
    [eexists _, _, _, _; split; [reflexivity | auto]|].
  destruct (AxiomClient.status_code r =? 404);
    [eexists _, _, _, _; split; [reflexivity | auto]|].
  destruct (AxiomClient.status_code r =? 422);
    [eexists _, _, _, _; split; [reflexivity | auto]|].
  destruct (AxiomClient.status_code r >=? 500);
    eexists _, _, _, _; (split; [reflexivity | auto]).
Qed.

(** a 404 whose body names the token, and a 502 whose body is not JSON *)
Example handler_reads_error_object :
  AxiomClient._handle_error_response (fun _ => None)
    (AxiomClient.mkResponse 404
       (Some (AxiomClient.JObj
                [("error"%string,
                  AxiomClient.JObj
                    [("message"%string, AxiomClient.JStr "Token 7 not found");
                     ("code"%string, AxiomClient.JStr "TOKEN_NOT_FOUND")])]))
       "{...}" None)
  = AxiomClient.Api AxiomClient.NotFoundError
      (AxiomClient.JStr "Token 7 not found") 404
      (AxiomClient.JStr "TOKEN_NOT_FOUND") (AxiomClient.JObj []).
Proof. reflexivity. Qed.

Lemma error_message_falls_back_to_text_witness :
  exists cls message code details,
    AxiomClient._handle_error_response (fun _ => None)
      (AxiomClient.mkResponse 502 None "Bad Gateway" None)
    = AxiomClient.Api cls message 502 code details
    /\ message = AxiomClient.JStr "Bad Gateway"
    /\ code = AxiomClient.JNull /\ details = AxiomClient.JObj [].
Proof.
  destruct (error_message_falls_back_to_text (fun _ => None)
              (AxiomClient.mkResponse 502 None "Bad Gateway" None))
    as (cls & message & code & details & E & F & _).
  - simpl. lia.
  - exists cls, message, code, details. split; [exact E|].
    apply F. left. reflexivity.
Defined.

(** a 429 whose Retry-After header is not a number *)
Example handler_rate_limit_bad_header :
  AxiomClient._handle_error_response
    (fun s => if String.eqb s "30" then Some 30 else None)
    (AxiomClient.mkResponse 429 None "slow down" (Some "soon"%string))
  = AxiomClient.ValueError "soon".
Proof. reflexivity. Qed.

(** * The logger name *)

Lemma prefix_append (p s : string) : String.prefix p (p ++ s) = true.
Proof.
  induction p as [|c p IH]; simpl; [now destruct s|].
  destruct (ascii_dec c c) as [_|N]; [exact IH | now elim N].
Qed.

(** X21: the name that [get_logger] asks the logging module for always
    starts with "axiom": it is "axiom" when no name is given, the name
    itself when it starts with "axiom" already, and "axiom." followed by
    the name otherwise; applying the rule to its own result changes
    nothing. *)
Theorem logger_name_is_under_axiom (name : option string) :
  String.prefix "axiom" (logger_name name) = true
  /\ logger_name (Some (logger_name name)) = logger_name name
  /\ (forall n, name = Some n -> String.prefix "axiom" n = true ->
                logger_name name = n)
  /\ (forall n, name = Some n -> String.prefix "axiom" n = false ->
                logger_name name = ("axiom." ++ n)%string).
Proof.
  assert (P : String.prefix "axiom" (logger_name name) = true).
  { destruct name as [n|]; [|reflexivity].
    unfold logger_name, LOGGER_NAME.
    destruct (String.prefix "axiom" n) eqn:E; simpl; [exact E|].
    apply (prefix_append "axiom" ("." ++ n)). }
  split; [exact P|]. split; [|split].
  - change (logger_name (Some (logger_name name)))
      with (if negb (String.prefix LOGGER_NAME (logger_name name))
            then (LOGGER_NAME ++ "." ++ logger_name name)%string
            else logger_name name).
    unfold LOGGER_NAME at 1. now rewrite P.
  - intros n -> E. unfold logger_name, LOGGER_NAME. now rewrite E.
  - intros n -> E. unfold logger_name, LOGGER_NAME. now rewrite E.
Qed.

Example logger_names :
  map logger_name
    [None; Some "client"%string; Some "axiom.client"%string;
     Some "axiomatic"%string]
  = ["axiom"%string; "axiom.client"%string; "axiom.client"%string;
     "axiomatic"%string].
Proof. reflexivity. Qed.
